(** * flight_search_amadeus: offer fetcher and offer normaliser

    A shallow embedding of [amadeusOperator.py] (class [AmadeusOperator]) and
    [flightOfferProcessor.py] (class [FlightOfferProcessor]), with the
    properties of the pipeline stated and proved over it.

    Conventions.
    - Python [float] is IEEE binary64: Rocq's primitive [float].
    - A raised exception is the [Raise] outcome of [result]; a function that
      prints or touches the disk is a state transformer over [world].
    - pandas is not part of the repository.  Its two string parsers
      ([to_timedelta], [to_datetime]) are Section variables, so every theorem
      holds for whatever they accept; [Sample] instantiates them to run the
      model on concrete tables.
    - A table is typed: text columns hold strings or NaN, [Price] floats,
      [Stops] integers.  Where pandas would decide by the inferred type of a
      whole column, or a file is used as a file of another kind, the outcome
      is [Raise OutsideModel]. *)

From Stdlib Require Import Floats ZArith List Bool Ascii String Lia Sorted.
From stdpp Require Import base option list strings gmap pretty.
Import ListNotations.

Local Open Scope string_scope.
Local Open Scope Z_scope.

(** ** Exceptions and outcomes *)

(** The exceptions of Python, pandas and the provider's SDK that the program
    can meet; [OutsideModel] is not one of them, it marks a run the model
    does not follow. *)
Inductive exn :=
| IndexError | ValueError | TypeError | AttributeError
| FileNotFoundError | EmptyDataError | JSONDecodeError
| ResponseError (description code : string)
| OutsideModel.

Inductive result (A : Type) :=
| Ok (a : A)
| Raise (e : exn).
Arguments Ok {A} a.
Arguments Raise {A} e.

#[global] Instance result_ret : MRet result := fun A a => Ok a.
#[global] Instance result_bind : MBind result := fun A B f m =>
  match m with Ok a => f a | Raise e => Raise e end.
#[global] Instance result_fmap : FMap result := fun A B f m =>
  match m with Ok a => Ok (f a) | Raise e => Raise e end.

(** [l[i]] on a Python list. *)
Definition index {A} (l : list A) (i : nat) : result A :=
  match l !! i with Some a => Ok a | None => Raise IndexError end.

(** [[f(x) for x in l]] where [f] may raise: stops at the first exception. *)
Fixpoint mapR {A B} (f : A -> result B) (l : list A) : result (list B) :=
  match l with
  | [] => Ok []
  | a :: l' =>
      match f a with
      | Raise e => Raise e
      | Ok b => match mapR f l' with Raise e => Raise e | Ok bs => Ok (b :: bs) end
      end
  end.

(** ** Python's [float(str)] *)

Module PyFloat.

Definition is_space (c : ascii) : bool :=
  match c with
  | " "%char | "009"%char | "010"%char | "011"%char | "012"%char | "013"%char => true
  | _ => false
  end.

Definition is_digit (c : ascii) : bool :=
  let n := N_of_ascii c in ((48 <=? n) && (n <=? 57))%N.

Definition digit_val (c : ascii) : Z := Z.of_N (N_of_ascii c) - 48.

Definition lower (c : ascii) : ascii :=
  let n := N_of_ascii c in
  if ((65 <=? n) && (n <=? 90))%N then ascii_of_N (n + 32) else c.

Fixpoint lstrip (l : list ascii) : list ascii :=
  match l with
  | c :: l' => if is_space c then lstrip l' else l
  | [] => []
  end.

Definition strip (l : list ascii) : list ascii :=
  rev (lstrip (rev (lstrip l))).

(** An underscore is legal only between two digits; legal ones are dropped. *)
Fixpoint drop_underscores (prev : ascii) (l : list ascii) : option (list ascii) :=
  match l with
  | [] => if Ascii.eqb prev "_" then None else Some []
  | c :: l' =>
      if Ascii.eqb c "_" then
        if is_digit prev then drop_underscores c l' else None
      else if Ascii.eqb prev "_" && negb (is_digit c) then None
      else option_map (cons c) (drop_underscores c l')
  end.

(** Reads a maximal run of digits: value so far, number of digits, rest. *)
Fixpoint digits (acc : Z) (n : Z) (l : list ascii) : Z * Z * list ascii :=
  match l with
  | c :: l' => if is_digit c then digits (10 * acc + digit_val c) (n + 1) l'
               else (acc, n, l)
  | [] => (acc, n, [])
  end.

Definition sign (l : list ascii) : bool * list ascii :=
  match l with
  | "-"%char :: l' => (true, l')
  | "+"%char :: l' => (false, l')
  | _ => (false, l)
  end.

(** The binary64 nearest (ties to even) to [± m * 10 ^ e10].  A negative
    exponent divides with enough extra bits and a sticky bit, so the single
    rounding of [binary_normalize] is the correct one. *)
Definition of_decimal (neg : bool) (m : Z) (e10 : Z) : float :=
  let sgn (z : Z) := if neg then - z else z in
  if m =? 0 then SF2Prim (S754_zero neg)
  else if 0 <=? e10 then
    SF2Prim (binary_normalize prec emax (sgn (m * 10 ^ e10)) 0 false)
  else
    let d := 10 ^ (- e10) in
    let s := Z.max 0 (Z.log2 d - Z.log2 m + 64) in
    let q := (m * 2 ^ s) / d in
    let q' := if (m * 2 ^ s) mod d =? 0 then q else Z.lor q 1 in
    SF2Prim (binary_normalize prec emax (sgn q') (- s) false).

Definition exponent (l : list ascii) : option Z :=
  match l with
  | [] => Some 0
  | c :: l' =>
      if Ascii.eqb (lower c) "e" then
        let '(neg, l'') := sign l' in
        match digits 0 0 l'' with
        | (e, n, []) => if 0 <? n then Some (if neg then - e else e) else None
        | _ => None
        end
      else None
  end.

Definition number (neg : bool) (l : list ascii) : option float :=
  let '(ip, ni, l1) := digits 0 0 l in
  let '(fp, nf, l2) :=
    match l1 with
    | "."%char :: l1' => digits ip 0 l1'
    | _ => (ip, 0, l1)
    end in
  if (ni + nf =? 0) then None
  else match exponent l2 with
       | Some e => Some (of_decimal neg fp (e - nf))
       | None => None
       end.

Definition float_chars (l : list ascii) : option float :=
  match drop_underscores " " (strip l) with
  | None => None
  | Some l0 =>
      let '(neg, l1) := sign l0 in
      let word := String.string_of_list_ascii (map lower l1) in
      if String.eqb word "inf" || String.eqb word "infinity" then
        Some (if neg then neg_infinity else infinity)
      else if String.eqb word "nan" then Some nan
      else number neg l1
  end.

(** [float(s)]: [None] stands for [ValueError]. *)
Definition float (s : string) : option float :=
  float_chars (String.list_ascii_of_string s).

(** [numpy.rint], which [Series.round()] applies to a float64 column:
    round to the nearest integer, ties to even. *)
Definition rint (x : PrimFloat.float) : PrimFloat.float :=
  let a := PrimFloat.abs x in
  if PrimFloat.ltb a 0x1p52%float then
    let r := PrimFloat.sub (PrimFloat.add a 0x1p52%float) 0x1p52%float in
    if PrimFloat.get_sign x then PrimFloat.opp r else r
  else x.

End PyFloat.

(** ** [datetime.strptime(s, '%Y-%m-%d').date()] *)

Module PyDate.

Record date := { year : Z; month : Z; day : Z }.

(** [d1 < d2] on [datetime.date]. *)
Definition ltb (d1 d2 : date) : bool :=
  (year d1 <? year d2)
  || ((year d1 =? year d2)
      && ((month d1 <? month d2)
          || ((month d1 =? month d2) && (day d1 <? day d2)))).

Definition is_leap (y : Z) : bool :=
  (y mod 4 =? 0) && (negb (y mod 100 =? 0) || (y mod 400 =? 0)).

Definition days_in_month (y m : Z) : Z :=
  if m =? 2 then (if is_leap y then 29 else 28)
  else if (m =? 4) || (m =? 6) || (m =? 9) || (m =? 11) then 30
  else 31.

(** The directive [%m]: [1[0-2]|0[1-9]|[1-9]]. *)
Definition month_field (l : list ascii) : option Z :=
  match l with
  | [c] => if PyFloat.is_digit c && negb (Ascii.eqb c "0")
           then Some (PyFloat.digit_val c) else None
  | [c1; c2] =>
      let v := 10 * PyFloat.digit_val c1 + PyFloat.digit_val c2 in
      if PyFloat.is_digit c1 && PyFloat.is_digit c2 && (1 <=? v) && (v <=? 12)
      then Some v else None
  | _ => None
  end.

(** The directive [%d]: [3[01]|[12]\d|0[1-9]|[1-9]| [1-9]]. *)
Definition day_field (l : list ascii) : option Z :=
  match l with
  | [c] => if PyFloat.is_digit c && negb (Ascii.eqb c "0")
           then Some (PyFloat.digit_val c) else None
  | [c1; c2] =>
      if Ascii.eqb c1 " " then
        if PyFloat.is_digit c2 && negb (Ascii.eqb c2 "0")
        then Some (PyFloat.digit_val c2) else None
      else
        let v := 10 * PyFloat.digit_val c1 + PyFloat.digit_val c2 in
        if PyFloat.is_digit c1 && PyFloat.is_digit c2 && (1 <=? v) && (v <=? 31)
        then Some v else None
  | _ => None
  end.

(** Splits at the first ["-"]. *)
Fixpoint until_dash (l : list ascii) : option (list ascii * list ascii) :=
  match l with
  | [] => None
  | c :: l' =>
      if Ascii.eqb c "-" then Some ([], l')
      else match until_dash l' with
           | Some (a, b) => Some (c :: a, b)
           | None => None
           end
  end.

(** [None] stands for [ValueError]: the string does not match the format, or
    names a day that does not exist. *)
Definition strptime_ymd (s : string) : option date :=
  match String.list_ascii_of_string s with
  | y1 :: y2 :: y3 :: y4 :: "-"%char :: l =>
      if forallb PyFloat.is_digit [y1; y2; y3; y4] then
        let y := fst (fst (PyFloat.digits 0 0 [y1; y2; y3; y4])) in
        match until_dash l with
        | Some (ml, dl) =>
            match month_field ml, day_field dl with
            | Some m, Some d =>
                if (1 <=? y) && (d <=? days_in_month y m)
                then Some {| year := y; month := m; day := d |}
                else None
            | _, _ => None
            end
        | None => None
        end
      else None
  | _ => None
  end.

End PyDate.

(** ** Data *)

(** The provider's response: [response.result['data']] is a list of offers,
    each a nested dictionary.  Only the keys the program reads are kept. *)
Record Endpoint := { iataCode : string; at_ : string }.
Record Segment := { departure : Endpoint; arrival : Endpoint; seg_duration : string }.
Record Itinerary := { duration : string; segments : list Segment }.
Record PriceInfo := { total : string; currency : string }.
Record Offer := { itineraries : list Itinerary; price : PriceInfo }.

(** The dictionary [offer_to_add]: one line of the raw file. *)
Module Raw.
Record row := {
  Currency : string;
  Price : float;
  Date : string;
  Stops : Z;
  IATA_Origin : string;
  IATA_Destination : string;
  Duration : string;
  IATA1_Origin : string;
  IATA1_Destination : string;
  Duration1 : string;
  Total_Duration : string
}.
End Raw.

(** The normaliser's [DataFrame].  A row has one field per column the pipeline
    ever names; a text cell is [None] when pandas holds NaN there, and the
    five derived columns are [None] until their step assigns them.  [Price] is
    a float64 column and [Stops] an int64 column. *)
Module Table.
Record row := {
  Currency : option string;
  Price : float;
  Date : option string;
  Stops : Z;
  IATA_Origin : option string;
  IATA_Destination : option string;
  Duration : option string;
  IATA1_Origin : option string;
  IATA1_Destination : option string;
  Duration1 : option string;
  Total_Duration : option string;
  City_Origin : option string;
  City_Destination : option string;
  City1_Origin : option string;
  City1_Destination : option string;
  Stop_Duration : option string
}.

(** Column labels: the cells of the line [read_csv] took as the header, if
    any, followed by the labels assigned by name. *)
Record header := { first_line : option Raw.row; names : list string }.

Definition width (h : header) : nat :=
  (match first_line h with Some _ => 11 | None => 0 end + length (names h))%nat.

Record DataFrame := { columns : header; rows : list row }.
End Table.

Inductive file :=
| RawCsv (lines : list Raw.row)
| ReportCsv (df : Table.DataFrame)
| JsonMap (m : gmap string string).

(** What the program can observe and change: the disk, the terminal and the
    calendar. *)
Record world := {
  fs : gmap string file;
  stdout : list string;
  today : PyDate.date
}.

Definition print (w : world) (line : string) : world :=
  {| fs := fs w; stdout := stdout w ++ [line]; today := today w |}.

Definition set_fs (w : world) (fs' : gmap string file) : world :=
  {| fs := fs'; stdout := stdout w; today := today w |}.

(** [os.path.exists]. *)
Definition exists_ (w : world) (path : string) : bool :=
  bool_decide (is_Some (fs w !! path)).

(** A computation that may print, read or write, and may raise. *)
Definition Py (A : Type) : Type := world -> result A * world.

Definition ret {A} (a : A) : Py A := fun w => (Ok a, w).
Definition lift {A} (r : result A) : Py A := fun w => (r, w).
Definition bind {A B} (m : Py A) (k : A -> Py B) : Py B := fun w =>
  match m w with
  | (Ok a, w') => k a w'
  | (Raise e, w') => (Raise e, w')
  end.

Notation "x <~ m ;; k" := (bind m (fun x => k))
  (at level 100, m at next level, right associativity).

(** ** amadeusOperator.py *)

Module AmadeusOperator.

(** [self.amadeus.shopping.flight_offers_search.get]: the provider answers a
    query (origin, destination, date, adults) with a list of offers or raises
    [ResponseError]. *)
Record t := {
  amadeus : string -> string -> string -> Z -> result (list Offer)
}.

(** The body of the [for] loop of [_add_offers_to_df]: [Ok None] is
    [continue], [Ok (Some row)] is the dictionary that gets concatenated. *)
Definition offer_to_add (max_price : float) (offer : Offer)
  : result (option Raw.row) :=
  itinerary ← index (itineraries offer) 0;
  match PyFloat.float (total (price offer)) with
  | None => Ok None
  | Some total_price =>
      if PrimFloat.ltb max_price total_price then Ok None
      else
        let currency := currency (price offer) in
        let total_duration := duration itinerary in
        let segments := segments itinerary in
        let num_of_stops := Z.of_nat (length segments) - 1 in
        if 1 <? num_of_stops then Ok None
        else
          segment0 ← index segments 0;
          let row :=
            {| Raw.Currency := currency;
               Raw.Price := total_price;
               Raw.Date := at_ (departure segment0);
               Raw.Stops := num_of_stops;
               Raw.IATA_Origin := iataCode (departure segment0);
               Raw.IATA_Destination := iataCode (arrival segment0);
               Raw.Duration := seg_duration segment0;
               Raw.IATA1_Origin := "";
               Raw.IATA1_Destination := "";
               Raw.Duration1 := "";
               Raw.Total_Duration := total_duration |} in
          if 0 <? num_of_stops then
            segment1 ← index segments 1;
            Ok (Some
              {| Raw.Currency := Raw.Currency row;
                 Raw.Price := Raw.Price row;
                 Raw.Date := Raw.Date row;
                 Raw.Stops := Raw.Stops row;
                 Raw.IATA_Origin := Raw.IATA_Origin row;
                 Raw.IATA_Destination := Raw.IATA_Destination row;
                 Raw.Duration := Raw.Duration row;
                 Raw.IATA1_Origin := iataCode (departure segment1);
                 Raw.IATA1_Destination := iataCode (arrival segment1);
                 Raw.Duration1 := seg_duration segment1;
                 Raw.Total_Duration := Raw.Total_Duration row |})
          else Ok (Some row)
  end.

Fixpoint _add_offers_to_df (df : list Raw.row) (offer_lst : list Offer)
    (max_price : float) : result (list Raw.row) :=
  match offer_lst with
  | [] => Ok df
  | offer :: rest =>
      match offer_to_add max_price offer with
      | Raise e => Raise e
      | Ok None => _add_offers_to_df df rest max_price
      | Ok (Some row) => _add_offers_to_df (df ++ [row]) rest max_price
      end
  end.

(** [df.to_csv(filepath, mode='a', header=False, index=False)]: the lines go
    after those already in the file, which is created when absent.  Appending
    raw lines to a file of another kind is not modelled. *)
Definition to_csv_append (filepath : string) (df : list Raw.row) : Py unit :=
  fun w =>
    match fs w !! filepath with
    | None => (Ok tt, set_fs w (<[filepath := RawCsv df]> (fs w)))
    | Some (RawCsv lines) =>
        (Ok tt, set_fs w (<[filepath := RawCsv (lines ++ df)]> (fs w)))
    | Some _ => (Raise OutsideModel, w)
    end.

Definition get_flight_offers (self : t)
    (origin destination departure_date filepath : string) (adults : Z)
  : Py (option (list Offer)) :=
  fun w =>
    match PyDate.strptime_ymd departure_date with
    | None => (Raise ValueError, w)
    | Some departure_date_obj =>
        if PyDate.ltb departure_date_obj (today w) then
          (Ok None,
           print w ("Error: Departure date " ++ departure_date
                    ++ " is in the past."))
        else
          match amadeus self origin destination departure_date adults with
          | Raise (ResponseError description code) =>
              (Ok None,
               print
                 (print w ("An error occurred: " ++ description
                           ++ String "010" "Departure: " ++ origin
                           ++ ". Destination: " ++ destination))
                 code)
          | Raise e => (Raise e, w)
          | Ok offer_lst =>
              match _add_offers_to_df [] offer_lst 400%float with
              | Raise e => (Raise e, w)
              | Ok df =>
                  match to_csv_append filepath df w with
                  | (Ok _, w') => (Ok (Some offer_lst), w')
                  | (Raise e, w') => (Raise e, w')
                  end
              end
          end
    end.

End AmadeusOperator.

(** ** flightOfferProcessor.py *)

Module FlightOfferProcessor.

Import Table.

(** The object: [self.filepath] and [self.df] ([None] after a failed load). *)
Record t := { filepath : string; df : option DataFrame }.

Definition with_df (self : t) (d : DataFrame) : t :=
  {| filepath := filepath self; df := Some d |}.

(** [self.df[...]] and [self.df.attr] when [self.df] may be [None]. *)
Definition subscript (self : t) : result DataFrame :=
  match df self with Some d => Ok d | None => Raise TypeError end.
Definition attribute (self : t) : result DataFrame :=
  match df self with Some d => Ok d | None => Raise AttributeError end.

(** *** Reading the raw file *)

(** The strings [read_csv] takes for a missing value. *)
Definition na_values : list string :=
  [""; "#N/A"; "#N/A N/A"; "#NA"; "-1.#IND"; "-1.#QNAN"; "-NaN"; "-nan";
   "1.#IND"; "1.#QNAN"; "<NA>"; "N/A"; "NA"; "NULL"; "NaN"; "None"; "n/a";
   "nan"; "null"].

Definition read_cell (s : string) : option string :=
  if existsb (String.eqb s) na_values then None else Some s.

(** A line of the raw file as a row of the table: position by position.  The
    textual round trip of a number through the file is taken as exact. *)
Definition read_line (l : Raw.row) : row :=
  {| Currency := read_cell (Raw.Currency l);
     Price := Raw.Price l;
     Date := read_cell (Raw.Date l);
     Stops := Raw.Stops l;
     IATA_Origin := read_cell (Raw.IATA_Origin l);
     IATA_Destination := read_cell (Raw.IATA_Destination l);
     Duration := read_cell (Raw.Duration l);
     IATA1_Origin := read_cell (Raw.IATA1_Origin l);
     IATA1_Destination := read_cell (Raw.IATA1_Destination l);
     Duration1 := read_cell (Raw.Duration1 l);
     Total_Duration := read_cell (Raw.Total_Duration l);
     City_Origin := None; City_Destination := None;
     City1_Origin := None; City1_Destination := None;
     Stop_Duration := None |}.

(** [pd.read_csv(path)] with its default [header='infer']: the first line of
    the file gives the column labels and the lines after it are the data.  A
    file with no line at all raises [EmptyDataError]. *)
Definition read_csv (lines : list Raw.row) : result DataFrame :=
  match lines with
  | [] => Raise EmptyDataError
  | first :: data =>
      Ok {| columns := {| first_line := Some first; names := [] |};
            rows := map read_line data |}
  end.

Definition read_file (path : string) : Py (option DataFrame) := fun w =>
  match fs w !! path with
  | None =>
      (Ok None, print w ("Error: The file '" ++ path ++ "' does not exist."))
  | Some (RawCsv lines) =>
      match read_csv lines with
      | Ok d => (Ok (Some d), w)
      | Raise e => (Raise e, w)
      end
  | Some _ => (Raise OutsideModel, w)
  end.

(** [FlightOfferProcessor(filepath)]. *)
Definition __init__ (path : string) : Py t :=
  d <~ read_file path ;; ret {| filepath := path; df := d |}.

(** *** Column assignment *)

(** [df[label] = ...]: a new label goes last. *)
Definition assign (label : string) (h : header) : header :=
  if existsb (String.eqb label) (names h) then h
  else {| first_line := first_line h; names := names h ++ [label] |}.

Definition set_column (set : row -> option string -> row) (label : string)
    (d : DataFrame) (s : list (option string)) : DataFrame :=
  {| columns := assign label (columns d); rows := zip_with set (rows d) s |}.

Definition set_Currency (r : row) (v : option string) : row :=
  {| Currency := v; Price := Price r; Date := Date r; Stops := Stops r;
     IATA_Origin := IATA_Origin r; IATA_Destination := IATA_Destination r;
     Duration := Duration r; IATA1_Origin := IATA1_Origin r;
     IATA1_Destination := IATA1_Destination r; Duration1 := Duration1 r;
     Total_Duration := Total_Duration r; City_Origin := City_Origin r;
     City_Destination := City_Destination r; City1_Origin := City1_Origin r;
     City1_Destination := City1_Destination r; Stop_Duration := Stop_Duration r |}.

Definition set_Price (r : row) (v : float) : row :=
  {| Currency := Currency r; Price := v; Date := Date r; Stops := Stops r;
     IATA_Origin := IATA_Origin r; IATA_Destination := IATA_Destination r;
     Duration := Duration r; IATA1_Origin := IATA1_Origin r;
     IATA1_Destination := IATA1_Destination r; Duration1 := Duration1 r;
     Total_Duration := Total_Duration r; City_Origin := City_Origin r;
     City_Destination := City_Destination r; City1_Origin := City1_Origin r;
     City1_Destination := City1_Destination r; Stop_Duration := Stop_Duration r |}.

Definition set_Date (r : row) (v : option string) : row :=
  {| Currency := Currency r; Price := Price r; Date := v; Stops := Stops r;
     IATA_Origin := IATA_Origin r; IATA_Destination := IATA_Destination r;
     Duration := Duration r; IATA1_Origin := IATA1_Origin r;
     IATA1_Destination := IATA1_Destination r; Duration1 := Duration1 r;
     Total_Duration := Total_Duration r; City_Origin := City_Origin r;
     City_Destination := City_Destination r; City1_Origin := City1_Origin r;
     City1_Destination := City1_Destination r; Stop_Duration := Stop_Duration r |}.

Definition set_Duration (r : row) (v : option string) : row :=
  {| Currency := Currency r; Price := Price r; Date := Date r; Stops := Stops r;
     IATA_Origin := IATA_Origin r; IATA_Destination := IATA_Destination r;
     Duration := v; IATA1_Origin := IATA1_Origin r;
     IATA1_Destination := IATA1_Destination r; Duration1 := Duration1 r;
     Total_Duration := Total_Duration r; City_Origin := City_Origin r;
     City_Destination := City_Destination r; City1_Origin := City1_Origin r;
     City1_Destination := City1_Destination r; Stop_Duration := Stop_Duration r |}.

Definition set_Duration1 (r : row) (v : option string) : row :=
  {| Currency := Currency r; Price := Price r; Date := Date r; Stops := Stops r;
     IATA_Origin := IATA_Origin r; IATA_Destination := IATA_Destination r;
     Duration := Duration r; IATA1_Origin := IATA1_Origin r;
     IATA1_Destination := IATA1_Destination r; Duration1 := v;
     Total_Duration := Total_Duration r; City_Origin := City_Origin r;
     City_Destination := City_Destination r; City1_Origin := City1_Origin r;
     City1_Destination := City1_Destination r; Stop_Duration := Stop_Duration r |}.

Definition set_Total_Duration (r : row) (v : option string) : row :=
  {| Currency := Currency r; Price := Price r; Date := Date r; Stops := Stops r;
     IATA_Origin := IATA_Origin r; IATA_Destination := IATA_Destination r;
     Duration := Duration r; IATA1_Origin := IATA1_Origin r;
     IATA1_Destination := IATA1_Destination r; Duration1 := Duration1 r;
     Total_Duration := v; City_Origin := City_Origin r;
     City_Destination := City_Destination r; City1_Origin := City1_Origin r;
     City1_Destination := City1_Destination r; Stop_Duration := Stop_Duration r |}.

Definition set_City_Origin (r : row) (v : option string) : row :=
  {| Currency := Currency r; Price := Price r; Date := Date r; Stops := Stops r;
     IATA_Origin := IATA_Origin r; IATA_Destination := IATA_Destination r;
     Duration := Duration r; IATA1_Origin := IATA1_Origin r;
     IATA1_Destination := IATA1_Destination r; Duration1 := Duration1 r;
     Total_Duration := Total_Duration r; City_Origin := v;
     City_Destination := City_Destination r; City1_Origin := City1_Origin r;
     City1_Destination := City1_Destination r; Stop_Duration := Stop_Duration r |}.

Definition set_City_Destination (r : row) (v : option string) : row :=
  {| Currency := Currency r; Price := Price r; Date := Date r; Stops := Stops r;
     IATA_Origin := IATA_Origin r; IATA_Destination := IATA_Destination r;
     Duration := Duration r; IATA1_Origin := IATA1_Origin r;
     IATA1_Destination := IATA1_Destination r; Duration1 := Duration1 r;
     Total_Duration := Total_Duration r; City_Origin := City_Origin r;
     City_Destination := v; City1_Origin := City1_Origin r;
     City1_Destination := City1_Destination r; Stop_Duration := Stop_Duration r |}.

Definition set_City1_Origin (r : row) (v : option string) : row :=
  {| Currency := Currency r; Price := Price r; Date := Date r; Stops := Stops r;
     IATA_Origin := IATA_Origin r; IATA_Destination := IATA_Destination r;
     Duration := Duration r; IATA1_Origin := IATA1_Origin r;
     IATA1_Destination := IATA1_Destination r; Duration1 := Duration1 r;
     Total_Duration := Total_Duration r; City_Origin := City_Origin r;
     City_Destination := City_Destination r; City1_Origin := v;
     City1_Destination := City1_Destination r; Stop_Duration := Stop_Duration r |}.

Definition set_City1_Destination (r : row) (v : option string) : row :=
  {| Currency := Currency r; Price := Price r; Date := Date r; Stops := Stops r;
     IATA_Origin := IATA_Origin r; IATA_Destination := IATA_Destination r;
     Duration := Duration r; IATA1_Origin := IATA1_Origin r;
     IATA1_Destination := IATA1_Destination r; Duration1 := Duration1 r;
     Total_Duration := Total_Duration r; City_Origin := City_Origin r;
     City_Destination := City_Destination r; City1_Origin := City1_Origin r;
     City1_Destination := v; Stop_Duration := Stop_Duration r |}.

Definition set_Stop_Duration (r : row) (v : option string) : row :=
  {| Currency := Currency r; Price := Price r; Date := Date r; Stops := Stops r;
     IATA_Origin := IATA_Origin r; IATA_Destination := IATA_Destination r;
     Duration := Duration r; IATA1_Origin := IATA1_Origin r;
     IATA1_Destination := IATA1_Destination r; Duration1 := Duration1 r;
     Total_Duration := Total_Duration r; City_Origin := City_Origin r;
     City_Destination := City_Destination r; City1_Origin := City1_Origin r;
     City1_Destination := City1_Destination r; Stop_Duration := v |}.

(** Selecting the report's columns leaves out [IATA1_Origin] and
    [City1_Origin]. *)
Definition report_row (r : row) : row :=
  {| Currency := Currency r; Price := Price r; Date := Date r; Stops := Stops r;
     IATA_Origin := IATA_Origin r; IATA_Destination := IATA_Destination r;
     Duration := Duration r; IATA1_Origin := None;
     IATA1_Destination := IATA1_Destination r; Duration1 := Duration1 r;
     Total_Duration := Total_Duration r; City_Origin := City_Origin r;
     City_Destination := City_Destination r; City1_Origin := None;
     City1_Destination := City1_Destination r; Stop_Duration := Stop_Duration r |}.

(** *** Durations and dates *)

(** A [Timedelta] is a number of nanoseconds; its [components] split it with
    floor division, so that a negative value has negative days and the other
    components between zero and their modulus. *)
Definition components_days (x : Z) : Z := x / 86400000000000.
Definition components_hours (x : Z) : Z := (x mod 86400000000000) / 3600000000000.
Definition components_minutes (x : Z) : Z := (x mod 3600000000000) / 60000000000.

(** The format specification [:02]. *)
Definition fmt02 (z : Z) : string :=
  if (0 <=? z) && (z <? 10) then "0" ++ pretty z else pretty z.

(** [f'{x.components.days * 24 + x.components.hours:02}:{x.components.minutes:02}']. *)
Definition hhmm (x : Z) : string :=
  fmt02 (components_days x * 24 + components_hours x)
  ++ ":" ++ fmt02 (components_minutes x).

(** A [Timestamp], as far as [strftime('%Y-%m-%d %H:%M')] reads it. *)
Record Timestamp := { year : Z; month : Z; day : Z; hour : Z; minute : Z }.

Definition strftime (x : Timestamp) : string :=
  pretty (year x) ++ "-" ++ fmt02 (month x) ++ "-" ++ fmt02 (day x)
  ++ " " ++ fmt02 (hour x) ++ ":" ++ fmt02 (minute x).

(** A column handed to [pd.to_timedelta]: text cells, or timedeltas already. *)
Inductive series :=
| Strings (cells : list (option string))
| Timedeltas (cells : list (option Z)).

(** [series + ':00'] on a text column: NaN stays NaN. *)
Definition add_str (suffix : string) (c : option string) : option string :=
  match c with Some s => Some (s ++ suffix) | None => None end.

(** Whether a column holds at least one string. *)
Definition has_text (cells : list (option string)) : bool :=
  existsb (fun c => match c with Some _ => true | None => false end) cells.

(** [series + ':00'] on a whole column.  A column without any string is not
    a text column for pandas, which stores it as numbers or timedeltas; what
    the sum does there is left outside the model. *)
Definition series_add (cells : list (option string)) (suffix : string)
  : result (list (option string)) :=
  if has_text cells then Ok (map (add_str suffix) cells)
  else Raise OutsideModel.

(** Subtraction of timedeltas: NaT absorbs. *)
Definition td_sub (a b : option Z) : option Z :=
  match a, b with
  | Some x, Some y => Some (x - y)
  | _, _ => None
  end.

Section Pandas.

(** pandas' parsers of one string: [None] is the [ValueError] raised under the
    default [errors='raise'], [Some None] is NaT. *)
Variable to_timedelta_str : string -> option (option Z).
Variable to_datetime_str : string -> option (option Timestamp).

Definition to_timedelta_cell (c : option string) : result (option Z) :=
  match c with
  | None => Ok None
  | Some s =>
      match to_timedelta_str s with
      | Some x => Ok x
      | None => Raise ValueError
      end
  end.

Definition to_timedelta (s : series) : result (list (option Z)) :=
  match s with
  | Strings cells => mapR to_timedelta_cell cells
  | Timedeltas cells => Ok cells
  end.

Definition to_datetime_cell (c : option string) : result (option Timestamp) :=
  match c with
  | None => Ok None
  | Some s =>
      match to_datetime_str s with
      | Some x => Ok x
      | None => Raise ValueError
      end
  end.

Definition _format_duration (duration_series : series)
  : result (list (option string)) :=
  timedeltas ← to_timedelta duration_series;
  Ok (map (fun x => match x with Some x => Some (hhmm x) | None => None end)
          timedeltas).

(** *** The steps of [process] *)

Definition canonical_header : list string :=
  ["Currency"; "Price"; "Date"; "Stops"; "IATA_Origin"; "IATA_Destination";
   "Duration"; "IATA1_Origin"; "IATA1_Destination"; "Duration1";
   "Total_Duration"].

(** Assigning [df.columns] raises [ValueError] unless the table has eleven
    columns. *)
Definition add_header (self : t) : result t :=
  d ← attribute self;
  if Nat.eqb (width (columns d)) 11 then
    Ok (with_df self
          {| columns := {| first_line := None; names := canonical_header |};
             rows := rows d |})
  else Raise ValueError.

(** [json.load] of the side file. *)
Definition _get_iata_city_code (jsonfilepath : string)
  : Py (gmap string string) := fun w =>
  match fs w !! jsonfilepath with
  | None => (Raise FileNotFoundError, w)
  | Some (JsonMap m) => (Ok m, w)
  | Some _ => (Raise JSONDecodeError, w)
  end.

(** [series.map(iata_city)]: a code that is not a key, and NaN, give NaN. *)
Definition map_dict (iata_city : gmap string string) (c : option string)
  : option string :=
  match c with Some code => iata_city !! code | None => None end.

Definition iata2city (self : t) : Py t :=
  iata_city <~ _get_iata_city_code "iata_codes.json" ;;
  lift (
    d ← subscript self;
    let d := set_column set_City_Origin "City_Origin" d
               (map (fun r => map_dict iata_city (IATA_Origin r)) (rows d)) in
    let d := set_column set_City_Destination "City_Destination" d
               (map (fun r => map_dict iata_city (IATA_Destination r)) (rows d)) in
    let d := set_column set_City1_Origin "City1_Origin" d
               (map (fun r => map_dict iata_city (IATA1_Origin r)) (rows d)) in
    let d := set_column set_City1_Destination "City1_Destination" d
               (map (fun r => map_dict iata_city (IATA1_Destination r)) (rows d)) in
    Ok (with_df self d)).

Definition process_duration (self : t) : result t :=
  d ← subscript self;
  s ← _format_duration (Strings (map Duration (rows d)));
  let d := set_column set_Duration "Duration" d s in
  s ← _format_duration (Strings (map Duration1 (rows d)));
  let d := set_column set_Duration1 "Duration1" d s in
  s ← _format_duration (Strings (map Total_Duration (rows d)));
  let d := set_column set_Total_Duration "Total_Duration" d s in
  Ok (with_df self d).

Definition format_date (self : t) : result t :=
  d ← subscript self;
  stamps ← mapR to_datetime_cell (map Date (rows d));
  Ok (with_df self
        (set_column set_Date "Date" d
           (map (fun x => match x with Some x => Some (strftime x) | None => None end)
                stamps))).

(** The column holds the timedelta differences until the second assignment
    replaces them by their formatted text. *)
Definition get_stop_duration (self : t) : result t :=
  d ← subscript self;
  cells ← series_add (map Total_Duration (rows d)) ":00";
  total ← to_timedelta (Strings cells);
  cells ← series_add (map Duration (rows d)) ":00";
  leg ← to_timedelta (Strings cells);
  cells ← series_add (map Duration1 (rows d)) ":00";
  leg1 ← to_timedelta (Strings cells);
  let stop := zip_with td_sub (zip_with td_sub total leg) leg1 in
  s ← _format_duration (Timedeltas stop);
  Ok (with_df self (set_column set_Stop_Duration "Stop_Duration" d s)).

Definition round_price (self : t) : result t :=
  d ← subscript self;
  Ok (with_df self
        {| columns := columns d;
           rows := map (fun r => set_Price r (PyFloat.rint (Price r))) (rows d) |}).

(** The literal [4.14] is the binary64 value [0x1.08f5c28f5c28fp+2]. *)
Definition exchange_rate : float := 0x1.08f5c28f5c28fp+2%float.

(** [series.eq('EUR')] on one cell: NaN is not equal to anything. *)
Definition is_eur (r : row) : bool :=
  match Currency r with Some c => String.eqb c "EUR" | None => false end.

Definition eur2ils (self : t) : Py t := fun w =>
  match subscript self with
  | Raise e => (Raise e, w)
  | Ok d =>
      if negb (forallb is_eur (rows d)) then
        (Ok self, print w "Not all prices are in EUR!!!")
      else
        (Ok (with_df self
               {| columns := columns d;
                  rows := map (fun r =>
                                 set_Currency
                                   (set_Price r (PrimFloat.mul (Price r) exchange_rate))
                                   (Some "ILS"))
                              (rows d) |}),
         w)
  end.

Definition new_order : list string :=
  ["Currency"; "Price"; "Date"; "Stops"; "Total_Duration"; "Stop_Duration";
   "City_Origin"; "IATA_Origin"; "City_Destination"; "IATA_Destination";
   "Duration"; "IATA1_Destination"; "City1_Destination"; "Duration1"].

Definition reorder_columns (self : t) : result t :=
  d ← subscript self;
  Ok (with_df self
        {| columns := {| first_line := None; names := new_order |};
           rows := map report_row (rows d) |}).

Definition process (self : t) : Py t :=
  match df self with
  | None =>
      fun w =>
        (Ok self,
         print w "Warning: No DataFrame available. Processing cannot proceed.")
  | Some _ =>
      self <~ lift (add_header self) ;;
      self <~ iata2city self ;;
      self <~ lift (process_duration self) ;;
      self <~ lift (format_date self) ;;
      self <~ lift (get_stop_duration self) ;;
      self <~ eur2ils self ;;
      self <~ lift (round_price self) ;;
      lift (reorder_columns self)
  end.

(** [df.to_csv(filepath, index=False)] writes the labels and the rows. *)
Definition save_csv (self : t) (path : string) : Py unit := fun w =>
  if exists_ w path then
    (Ok tt,
     print w ("Warning: The file '" ++ path
              ++ "' already exists. The file is not saved."))
  else
    match attribute self with
    | Raise e => (Raise e, w)
    | Ok d => (Ok tt, set_fs w (<[path := ReportCsv d]> (fs w)))
    end.

End Pandas.

End FlightOfferProcessor.

(** ** Parsers to run the model with

    Instances of the two pandas parsers for the encodings the pipeline meets:
    the provider's ISO-8601 durations [P[nD]T[nH][nM][nS]], the clock strings
    [H:MM:SS] that [get_stop_duration] builds, and the provider's timestamps
    [YYYY-MM-DDTHH:MM:SS].  They reject every other string, so they read
    fewer strings than pandas does: an example that needs a duration pandas
    rejects uses a text without any digit. *)

Module Sample.

Import FlightOfferProcessor.

(** Digits followed by the designator [u]; nothing is consumed otherwise. *)
Definition designated (u : ascii) (l : list ascii) : Z * bool * list ascii :=
  match PyFloat.digits 0 0 l with
  | (v, n, c :: l') =>
      if (0 <? n) && Ascii.eqb c u then (v, true, l') else (0, false, l)
  | _ => (0, false, l)
  end.

Definition iso_duration (l : list ascii) : option Z :=
  let '(d, hd, l) := designated "D" l in
  match l with
  | [] => if hd then Some (d * 86400000000000) else None
  | "T"%char :: l =>
      let '(h, hh, l) := designated "H" l in
      let '(m, hm, l) := designated "M" l in
      let '(s, hs, l) := designated "S" l in
      match l with
      | [] =>
          if hh || hm || hs then
            Some (d * 86400000000000 + h * 3600000000000
                  + m * 60000000000 + s * 1000000000)
          else None
      | _ => None
      end
  | _ => None
  end.

Definition two_digits (c1 c2 : ascii) : option Z :=
  if PyFloat.is_digit c1 && PyFloat.is_digit c2
  then Some (10 * PyFloat.digit_val c1 + PyFloat.digit_val c2) else None.

Definition clock (l : list ascii) : option Z :=
  let '(neg, l) :=
    match l with "-"%char :: l' => (true, l') | _ => (false, l) end in
  match PyFloat.digits 0 0 l with
  | (h, n, [":"%char; m1; m2; ":"%char; s1; s2]) =>
      match two_digits m1 m2, two_digits s1 s2 with
      | Some m, Some s =>
          if (0 <? n) && (m <? 60) && (s <? 60) then
            let x := h * 3600000000000 + m * 60000000000 + s * 1000000000 in
            Some (if neg then - x else x)
          else None
      | _, _ => None
      end
  | _ => None
  end.

Definition to_timedelta_str (s : string) : option (option Z) :=
  match String.list_ascii_of_string s with
  | "P"%char :: l => option_map Some (iso_duration l)
  | l => option_map Some (clock l)
  end.

Definition to_datetime_str (s : string) : option (option Timestamp) :=
  match String.list_ascii_of_string s with
  | [y1; y2; y3; y4; "-"; m1; m2; "-"; d1; d2; sep; h1; h2; ":"; n1; n2; ":"; s1; s2]%char =>
      if forallb PyFloat.is_digit [y1; y2; y3; y4]
         && (Ascii.eqb sep "T" || Ascii.eqb sep " ") then
        let y := fst (fst (PyFloat.digits 0 0 [y1; y2; y3; y4])) in
        match two_digits m1 m2, two_digits d1 d2,
              two_digits h1 h2, two_digits n1 n2, two_digits s1 s2 with
        | Some m, Some d, Some h, Some n, Some s =>
            if (1 <=? m) && (m <=? 12) && (1 <=? d)
               && (d <=? PyDate.days_in_month y m)
               && (h <? 24) && (n <? 60) && (s <? 60)
            then Some (Some {| year := y; month := m; day := d;
                               hour := h; minute := n |})
            else None
        | _, _, _, _, _ => None
        end
      else None
  | _ => None
  end.

(** The provider's answer of the end-to-end scenario: a two-segment offer at
    350 EUR and a direct one at 500 EUR. *)
Definition seg (o d t dur : string) : Segment :=
  {| departure := {| iataCode := o; at_ := t |};
     arrival := {| iataCode := d; at_ := "" |};
     seg_duration := dur |}.

Definition offer350 : Offer :=
  {| itineraries :=
       [ {| duration := "PT9H45M";
            segments := [ seg "JFK" "FCO" "2025-01-03T10:15:00" "PT6H30M";
                          seg "FCO" "TLV" "2025-01-03T19:00:00" "PT2H30M" ] |} ];
     price := {| total := "350.00"; currency := "EUR" |} |}.

Definition offer500 : Offer :=
  {| itineraries :=
       [ {| duration := "PT10H30M";
            segments := [ seg "JFK" "TLV" "2025-01-03T23:00:00" "PT10H30M" ] |} ];
     price := {| total := "500.00"; currency := "EUR" |} |}.

Definition direct (total_price : string) : Offer :=
  {| itineraries :=
       [ {| duration := "PT2H30M";
            segments := [ seg "ATH" "TLV" "2025-01-03T08:00:00" "PT2H30M" ] |} ];
     price := {| total := total_price; currency := "EUR" |} |}.

(** The raw rows of [offer350] and of [direct "120.5"]. *)
Definition row350 : Raw.row :=
  {| Raw.Currency := "EUR"; Raw.Price := 350%float;
     Raw.Date := "2025-01-03T10:15:00"; Raw.Stops := 1;
     Raw.IATA_Origin := "JFK"; Raw.IATA_Destination := "FCO";
     Raw.Duration := "PT6H30M"; Raw.IATA1_Origin := "FCO";
     Raw.IATA1_Destination := "TLV"; Raw.Duration1 := "PT2H30M";
     Raw.Total_Duration := "PT9H45M" |}.

Definition row120 : Raw.row :=
  {| Raw.Currency := "EUR"; Raw.Price := 120.5%float;
     Raw.Date := "2025-01-03T08:00:00"; Raw.Stops := 0;
     Raw.IATA_Origin := "ATH"; Raw.IATA_Destination := "TLV";
     Raw.Duration := "PT2H30M"; Raw.IATA1_Origin := "";
     Raw.IATA1_Destination := ""; Raw.Duration1 := "";
     Raw.Total_Duration := "PT2H30M" |}.

Definition client (answer : result (list Offer)) : AmadeusOperator.t :=
  {| AmadeusOperator.amadeus := fun _ _ _ _ => answer |}.

Definition cities : gmap string string :=
  {[ "JFK" := "New York"; "FCO" := "Rome"; "ATH" := "Athens";
     "TLV" := "Tel Aviv" ]}.

(** A disk with the side file only, on 1 January 2025. *)
Definition fresh : world :=
  {| fs := {[ "iata_codes.json" := JsonMap cities ]};
     stdout := [];
     today := {| PyDate.year := 2025; PyDate.month := 1; PyDate.day := 1 |} |}.

(** A raw line with the given stop count and durations. *)
Definition line (stops : Z) (leg leg1 total : string) : Raw.row :=
  {| Raw.Currency := "EUR"; Raw.Price := 100%float;
     Raw.Date := "2025-01-03T08:00:00"; Raw.Stops := stops;
     Raw.IATA_Origin := "ATH"; Raw.IATA_Destination := "TLV";
     Raw.Duration := leg; Raw.IATA1_Origin := "";
     Raw.IATA1_Destination := ""; Raw.Duration1 := leg1;
     Raw.Total_Duration := total |}.

(** The table of the given lines, as [read_csv] yields their cells, under the
    canonical header. *)
Definition frame (lines : list Raw.row) : Table.DataFrame :=
  {| Table.columns :=
       {| Table.first_line := None; Table.names := canonical_header |};
     Table.rows := map read_line lines |}.

Definition table (lines : list Raw.row) : FlightOfferProcessor.t :=
  {| filepath := "raw_offers_back.csv"; df := Some (frame lines) |}.

(** The disk after one day has been fetched: the provider answered with a
    direct offer at 120.5 and the two-segment offer at 350. *)
Definition fetched : world :=
  snd (AmadeusOperator.get_flight_offers
         (client (Ok [direct "120.5"; offer350]))
         "JFK" "TLV" "2025-01-03" "raw_offers_back.csv" 1 fresh).

(** The object [FlightOfferProcessor('raw_offers_back.csv')] builds on that
    disk. *)
Definition loaded : FlightOfferProcessor.t :=
  {| filepath := "raw_offers_back.csv";
     df := Some
       {| Table.columns :=
            {| Table.first_line := Some row120; Table.names := [] |};
          Table.rows := [read_line row350] |} |}.

(** The object after a load that found no file. *)
Definition load_failed : FlightOfferProcessor.t :=
  {| filepath := "raw_offers_back.csv"; df := None |}.

End Sample.

(** ** Notions of the specification *)

(** The three reasons to skip an offer: its total does not parse, it is above
    the ceiling, or its first itinerary has more than two segments. *)
Definition skipped_by_policy (max_price : float) (o : Offer) : bool :=
  match PyFloat.float (total (price o)) with
  | None => true
  | Some p =>
      PrimFloat.ltb max_price p
      || match itineraries o with
         | it :: _ => (2 <? length (segments it))%nat
         | [] => false
         end
  end.

(** The offers that survive the three filters, in the words of the
    specification: the total parses as a number, it does not exceed the
    ceiling, and the itinerary looked at, the first, has at most two
    segments. *)
Definition survives (max_price : float) (o : Offer) : bool :=
  match PyFloat.float (total (price o)) with
  | None => false
  | Some p =>
      negb (PrimFloat.ltb max_price p)
      && match itineraries o with
         | it :: _ => (length (segments it) <=? 2)%nat
         | [] => true
         end
  end.

Definition accepted_offers (max_price : float) (offers : list Offer)
  : list Offer :=
  List.filter (survives max_price) offers.

(** Two offers with the same price object and the same first itinerary. *)
Definition same_first_itinerary (o1 o2 : Offer) : Prop :=
  price o1 = price o2 /\ itineraries o1 !! 0%nat = itineraries o2 !! 0%nat.

(** A row whose every field is read where the specification says: currency
    and price in the price object; stop count, total duration, departure
    time and first leg in the itinerary of index 0 and its segment of index
    0; the second leg in the segment of index 1 of that itinerary, and empty
    when there is none. *)
Definition row_from_first_itinerary (o : Offer) (r : Raw.row) : Prop :=
  exists it s0,
    itineraries o !! 0%nat = Some it
    /\ segments it !! 0%nat = Some s0
    /\ Raw.Currency r = currency (price o)
    /\ PyFloat.float (total (price o)) = Some (Raw.Price r)
    /\ Raw.Stops r = Z.of_nat (length (segments it)) - 1
    /\ Raw.Total_Duration r = duration it
    /\ Raw.Date r = at_ (departure s0)
    /\ Raw.IATA_Origin r = iataCode (departure s0)
    /\ Raw.IATA_Destination r = iataCode (arrival s0)
    /\ Raw.Duration r = seg_duration s0
    /\ match segments it !! 1%nat with
       | Some s1 =>
           Raw.IATA1_Origin r = iataCode (departure s1)
           /\ Raw.IATA1_Destination r = iataCode (arrival s1)
           /\ Raw.Duration1 r = seg_duration s1
       | None =>
           Raw.IATA1_Origin r = "" /\ Raw.IATA1_Destination r = ""
           /\ Raw.Duration1 r = ""
       end.

(** The lines of the raw file at [path], none when there is no such file. *)
Definition raw_lines (w : world) (path : string) : list Raw.row :=
  match fs w !! path with
  | Some (RawCsv lines) => lines
  | _ => []
  end.

(** The stop duration of one row, from its three duration cells as they stand
    when step 5 runs: missing as soon as one of them is. *)
Definition stop_cell (to_timedelta_str : string -> option (option Z))
    (r : Table.row) : option string :=
  match Table.Total_Duration r, Table.Duration r, Table.Duration1 r with
  | Some total, Some leg, Some leg1 =>
      match to_timedelta_str (total ++ ":00"),
            to_timedelta_str (leg ++ ":00"),
            to_timedelta_str (leg1 ++ ":00") with
      | Some (Some x), Some (Some y), Some (Some z) =>
          Some (FlightOfferProcessor.hhmm (x - y - z))
      | _, _, _ => None
      end
  | _, _, _ => None
  end.

(** Every present cell of the column is a string the parser accepts. *)
Definition parseable (to_timedelta_str : string -> option (option Z))
    (c : option string) : Prop :=
  match c with
  | Some s => to_timedelta_str s <> None
  | None => True
  end.

(** The timedelta of a cell: NaT for a missing cell. *)
Definition timedelta_of (to_timedelta_str : string -> option (option Z))
    (c : option string) : option Z :=
  match c with
  | Some s => match to_timedelta_str s with Some x => x | None => None end
  | None => None
  end.

(** One cell of a reformatted duration column. *)
Definition formatted_cell (to_timedelta_str : string -> option (option Z))
    (c : option string) : option string :=
  match c with
  | Some s =>
      match to_timedelta_str s with
      | Some (Some x) => Some (FlightOfferProcessor.hhmm x)
      | _ => None
      end
  | None => None
  end.

(** What conversion does to a row: the price times the rate, the target
    currency. *)
Definition converted (r : Table.row) : Table.row :=
  FlightOfferProcessor.set_Currency
    (FlightOfferProcessor.set_Price r
       (PrimFloat.mul (Table.Price r) FlightOfferProcessor.exchange_rate))
    (Some "ILS").

(** The number of rows of the table an object holds. *)
Definition nrows (self : FlightOfferProcessor.t) : option nat :=
  match FlightOfferProcessor.df self with
  | Some d => Some (length (Table.rows d))
  | None => None
  end.

(** The three duration cells of a row, as [get_stop_duration] hands them to
    the parser. *)
Definition clock_cells (r : Table.row) : list (option string) :=
  [ FlightOfferProcessor.add_str ":00" (Table.Total_Duration r);
    FlightOfferProcessor.add_str ":00" (Table.Duration r);
    FlightOfferProcessor.add_str ":00" (Table.Duration1 r) ].

(** The warning of [save_csv]. *)
Definition not_saved (path : string) : string :=
  "Warning: The file '" ++ path ++ "' already exists. The file is not saved.".

(** ** [datetime.date] arithmetic *)

Module Calendar.

Import PyDate.

(** A [datetime.date] is a day that exists, in a year from 1 to 9999. *)
Definition valid (d : date) : bool :=
  (1 <=? year d) && (year d <=? 9999)
  && (1 <=? month d) && (month d <=? 12)
  && (1 <=? day d) && (day d <=? days_in_month (year d) (month d)).

(** [d1 <= d2]. *)
Definition leb (d1 d2 : date) : bool := negb (ltb d2 d1).

(** [d + timedelta(days=1)].  After 31 December 9999 Python raises
    [OverflowError], an exception [exn] has no name for. *)
Definition next_day (d : date) : result date :=
  if day d <? days_in_month (year d) (month d) then
    Ok {| year := year d; month := month d; day := day d + 1 |}
  else if month d <? 12 then
    Ok {| year := year d; month := month d + 1; day := 1 |}
  else if year d <? 9999 then
    Ok {| year := year d + 1; month := 1; day := 1 |}
  else Raise OutsideModel.

(** The directives [%m] and [%d] of [strftime]. *)
Definition pad2 (z : Z) : string :=
  if z <? 10 then "0" ++ pretty z else pretty z.

(** [d.strftime('%Y-%m-%d')].  The year is printed without padding, as the C
    library of Linux does; from the year 1000 on every platform agrees. *)
Definition strftime_ymd (d : date) : string :=
  pretty (year d) ++ "-" ++ pad2 (month d) ++ "-" ++ pad2 (day d).

(** A number that grows with the date, by at least one a day. *)
Definition rank (d : date) : Z := (year d * 12 + month d) * 31 + day d.

End Calendar.

(** ** amadeusOperator.py: the loops over dates and routes *)

Module Batch.

Import AmadeusOperator.

(** The [while] loop of [get_flights_within_dates].  The recursion is on a
    number of rounds; [get_flights_within_dates] gives it enough of them for
    any two dates, so that the exhausted case, left outside the model, is not
    met.  The value [get_flight_offers] returns is dropped. *)
Fixpoint date_loop (rounds : nat) (self : t) (origin destination : string)
    (current_date end_date : PyDate.date) (filepath : string) (adults : Z)
  : Py unit :=
  fun w =>
    if Calendar.leb current_date end_date then
      match rounds with
      | O => (Raise OutsideModel, w)
      | S rounds =>
          let current_date_formatted := Calendar.strftime_ymd current_date in
          match get_flight_offers self origin destination
                  current_date_formatted filepath adults w with
          | (Raise e, w') => (Raise e, w')
          | (Ok _, w') =>
              match Calendar.next_day current_date with
              | Raise e => (Raise e, w')
              | Ok next =>
                  date_loop rounds self origin destination next end_date
                    filepath adults w'
              end
          end
      end
    else (Ok tt, w).

Definition get_flights_within_dates (self : t) (origin destination : string)
    (start_date end_date : PyDate.date) (filepath : string) (adults : Z)
  : Py unit :=
  date_loop
    (Z.to_nat (Calendar.rank end_date - Calendar.rank start_date + 1))
    self origin destination start_date end_date filepath adults.

Definition retrieved (origin destination : string) : string :=
  origin ++ " - " ++ destination ++ " is retrieved.".

Fixpoint get_flights_across_destinations (self : t) (origin : string)
    (destination_lst : list string) (start_date end_date : PyDate.date)
    (filepath : string) (adults : Z) : Py unit :=
  fun w =>
    match destination_lst with
    | [] => (Ok tt, w)
    | destination :: rest =>
        match get_flights_within_dates self origin destination start_date
                end_date filepath adults w with
        | (Raise e, w') => (Raise e, w')
        | (Ok _, w') =>
            get_flights_across_destinations self origin rest start_date
              end_date filepath adults (print w' (retrieved origin destination))
        end
    end.

Fixpoint get_flights_across_origins (self : t) (origin_lst : list string)
    (destination : string) (start_date end_date : PyDate.date)
    (filepath : string) (adults : Z) : Py unit :=
  fun w =>
    match origin_lst with
    | [] => (Ok tt, w)
    | origin :: rest =>
        match get_flights_within_dates self origin destination start_date
                end_date filepath adults w with
        | (Raise e, w') => (Raise e, w')
        | (Ok _, w') =>
            get_flights_across_origins self rest destination start_date
              end_date filepath adults (print w' (retrieved origin destination))
        end
    end.

End Batch.

(** ** Further notions for the properties of the code *)

(** An offer the loop of [_add_offers_to_df] cannot index: it has no
    itinerary, or its price is kept and its first itinerary has no segment. *)
Definition malformed (max_price : float) (o : Offer) : bool :=
  match itineraries o with
  | [] => true
  | it :: _ =>
      match PyFloat.float (total (price o)) with
      | None => false
      | Some p =>
          negb (PrimFloat.ltb max_price p)
          && match segments it with [] => true | _ :: _ => false end
      end
  end.

(** From [w] to [w'] nothing happened but lines appended to the raw file at
    [path] and lines printed: the other files, a file of another kind at
    [path], and the calendar are as before. *)
Definition appends_only (path : string) (w w' : world) : Prop :=
  (forall p, p <> path -> fs w' !! p = fs w !! p)
  /\ (match fs w !! path with
      | None => fs w' !! path = None
                \/ exists lines, fs w' !! path = Some (RawCsv lines)
      | Some (RawCsv old) =>
          exists new, fs w' !! path = Some (RawCsv (old ++ new)%list)
      | Some f => fs w' !! path = Some f
      end)
  /\ (exists out, stdout w' = (stdout w ++ out)%list)
  /\ today w' = today w.

(** One day after the other: what the date loop does for the days of a list. *)
Fixpoint for_days (self : AmadeusOperator.t) (origin destination : string)
    (days : list PyDate.date) (filepath : string) (adults : Z) : Py unit :=
  fun w =>
    match days with
    | [] => (Ok tt, w)
    | d :: rest =>
        match AmadeusOperator.get_flight_offers self origin destination
                (Calendar.strftime_ymd d) filepath adults w with
        | (Raise e, w') => (Raise e, w')
        | (Ok _, w') =>
            for_days self origin destination rest filepath adults w'
        end
    end.

(** The days the date loop goes through, as long as it has rounds left. *)
Fixpoint days_from (rounds : nat) (current_date end_date : PyDate.date)
  : list PyDate.date :=
  if Calendar.leb current_date end_date then
    match rounds with
    | O => []
    | S rounds =>
        current_date ::
        match Calendar.next_day current_date with
        | Ok next => days_from rounds next end_date
        | Raise _ => []
        end
    end
  else [].

(** The days from [start_date] to [end_date]. *)
Definition days_between (start_date end_date : PyDate.date)
  : list PyDate.date :=
  days_from (Z.to_nat (Calendar.rank end_date - Calendar.rank start_date + 1))
    start_date end_date.

(** The report row of a table row: what the eight steps of [process] make of
    it, given the side map and whether every row of the table is in EUR. *)
Definition date_cell (to_datetime_str : string -> option (option FlightOfferProcessor.Timestamp))
    (c : option string) : option string :=
  match c with
  | Some s =>
      match to_datetime_str s with
      | Some (Some x) => Some (FlightOfferProcessor.strftime x)
      | _ => None
      end
  | None => None
  end.

Definition with_cities (iata_city : gmap string string) (r : Table.row)
  : Table.row :=
  FlightOfferProcessor.set_City1_Destination
    (FlightOfferProcessor.set_City1_Origin
       (FlightOfferProcessor.set_City_Destination
          (FlightOfferProcessor.set_City_Origin r
             (FlightOfferProcessor.map_dict iata_city (Table.IATA_Origin r)))
          (FlightOfferProcessor.map_dict iata_city (Table.IATA_Destination r)))
       (FlightOfferProcessor.map_dict iata_city (Table.IATA1_Origin r)))
    (FlightOfferProcessor.map_dict iata_city (Table.IATA1_Destination r)).

Definition with_durations (to_timedelta_str : string -> option (option Z))
    (r : Table.row) : Table.row :=
  FlightOfferProcessor.set_Total_Duration
    (FlightOfferProcessor.set_Duration1
       (FlightOfferProcessor.set_Duration r
          (formatted_cell to_timedelta_str (Table.Duration r)))
       (formatted_cell to_timedelta_str (Table.Duration1 r)))
    (formatted_cell to_timedelta_str (Table.Total_Duration r)).

Definition with_date (to_datetime_str : string -> option (option FlightOfferProcessor.Timestamp))
    (r : Table.row) : Table.row :=
  FlightOfferProcessor.set_Date r (date_cell to_datetime_str (Table.Date r)).

Definition with_stop (to_timedelta_str : string -> option (option Z))
    (r : Table.row) : Table.row :=
  FlightOfferProcessor.set_Stop_Duration r (stop_cell to_timedelta_str r).

Definition with_rounded_price (r : Table.row) : Table.row :=
  FlightOfferProcessor.set_Price r (PyFloat.rint (Table.Price r)).

Definition report_of (to_timedelta_str : string -> option (option Z))
    (to_datetime_str : string -> option (option FlightOfferProcessor.Timestamp))
    (iata_city : gmap string string) (all_eur : bool) (r : Table.row)
  : Table.row :=
  let r := with_cities iata_city r in
  let r := with_durations to_timedelta_str r in
  let r := with_date to_datetime_str r in
  let r := with_stop to_timedelta_str r in
  let r := if all_eur then converted r else r in
  let r := with_rounded_price r in
  FlightOfferProcessor.report_row r.

(** The header of the report. *)
Definition report_header : Table.header :=
  {| Table.first_line := None;
     Table.names := FlightOfferProcessor.new_order |}.

(** The check that a year is printed with four digits that read back as it. *)
Definition four_digits (y : Z) : bool :=
  match String.list_ascii_of_string (pretty y) with
  | [a; b; c; d] =>
      forallb PyFloat.is_digit [a; b; c; d]
      && (fst (fst (PyFloat.digits 0 0 [a; b; c; d])) =? y)
  | _ => false
  end.

(** The check that a month, or a day, is printed as two characters that the
    fields of [strptime] read back as it, up to the dash that follows. *)
Definition two_chars (field : list ascii -> option Z) (z : Z) : bool :=
  match String.list_ascii_of_string (Calendar.pad2 z) with
  | [a; b] =>
      negb (Ascii.eqb a "-") && negb (Ascii.eqb b "-")
      && match field [a; b] with Some v => v =? z | None => false end
  | _ => false
  end.

(** [date.max]. *)
Definition date_max : PyDate.date :=
  {| PyDate.year := 9999; PyDate.month := 12; PyDate.day := 31 |}.

(** There is no file at [path], or a raw file. *)
Definition raw_or_absent (path : string) (w : world) : bool :=
  match fs w !! path with
  | None | Some (RawCsv _) => true
  | Some _ => false
  end.

(** A provider that fails only with [ResponseError] and whose answers hold no
    offer that cannot be indexed. *)
Definition answers_well (self : AmadeusOperator.t) : Prop :=
  forall origin destination departure_date adults,
    match AmadeusOperator.amadeus self origin destination departure_date
            adults with
    | Ok offers => existsb (malformed 400) offers = false
    | Raise (ResponseError _ _) => True
    | Raise _ => False
    end.

(** Several lines printed one after the other. *)
Definition print_all (w : world) (lines : list string) : world :=
  fold_left print lines w.

(** A date cell the parser accepts. *)
Definition date_parseable
    (to_datetime_str : string -> option (option FlightOfferProcessor.Timestamp))
    (c : option string) : Prop :=
  match c with
  | Some s => to_datetime_str s <> None
  | None => True
  end.

(** A table [process] goes through: eleven columns; durations and dates that
    parse; and, once the durations are reformatted, three duration columns
    that hold text and whose cells parse again with [":00"] appended. *)
Definition processable (to_timedelta_str : string -> option (option Z))
    (to_datetime_str : string -> option (option FlightOfferProcessor.Timestamp))
    (d : Table.DataFrame) : Prop :=
  Table.width (Table.columns d) = 11%nat
  /\ Forall (fun r =>
       parseable to_timedelta_str (Table.Duration r)
       /\ parseable to_timedelta_str (Table.Duration1 r)
       /\ parseable to_timedelta_str (Table.Total_Duration r)
       /\ date_parseable to_datetime_str (Table.Date r)) (Table.rows d)
  /\ FlightOfferProcessor.has_text
       (map (fun r => formatted_cell to_timedelta_str (Table.Total_Duration r))
            (Table.rows d)) = true
  /\ FlightOfferProcessor.has_text
       (map (fun r => formatted_cell to_timedelta_str (Table.Duration r))
            (Table.rows d)) = true
  /\ FlightOfferProcessor.has_text
       (map (fun r => formatted_cell to_timedelta_str (Table.Duration1 r))
            (Table.rows d)) = true
  /\ Forall (fun r =>
       Forall (parseable to_timedelta_str)
         (clock_cells (with_durations to_timedelta_str r))) (Table.rows d).

(** The result of [process]: the report and what is printed. *)
Definition processed (to_timedelta_str : string -> option (option Z))
    (to_datetime_str : string -> option (option FlightOfferProcessor.Timestamp))
    (iata_city : gmap string string) (self : FlightOfferProcessor.t)
    (d : Table.DataFrame) (w : world)
  : result FlightOfferProcessor.t * world :=
  let all_eur := forallb FlightOfferProcessor.is_eur (Table.rows d) in
  (Ok (FlightOfferProcessor.with_df self
         {| Table.columns := report_header;
            Table.rows :=
              map (report_of to_timedelta_str to_datetime_str iata_city all_eur)
                  (Table.rows d) |}),
   if all_eur then w else print w "Not all prices are in EUR!!!").

(** ** More data to run the model with *)

Module Scenario.

(** The dates of [main.py]. *)
Definition jan3 : PyDate.date :=
  {| PyDate.year := 2025; PyDate.month := 1; PyDate.day := 3 |}.
Definition jan4 : PyDate.date :=
  {| PyDate.year := 2025; PyDate.month := 1; PyDate.day := 4 |}.

(** A provider that is out of quota. *)
Definition out_of_quota : AmadeusOperator.t :=
  Sample.client (Raise (ResponseError "[429]" "TooManyRequests")).

(** An offer at an acceptable price whose itinerary has no segment. *)
Definition no_segment : Offer :=
  {| itineraries := [ {| duration := "PT0S"; segments := [] |} ];
     price := {| total := "100.00"; currency := "EUR" |} |}.

(** The table of [Sample.loaded]. *)
Definition table : Table.DataFrame :=
  {| Table.columns :=
       {| Table.first_line := Some Sample.row120; Table.names := [] |};
     Table.rows := [FlightOfferProcessor.read_line Sample.row350] |}.

(** The object [process] makes of [Sample.loaded]. *)
Definition report : FlightOfferProcessor.t :=
  FlightOfferProcessor.with_df Sample.loaded
    {| Table.columns := report_header;
       Table.rows :=
         map (report_of Sample.to_timedelta_str Sample.to_datetime_str
                Sample.cities true)
             (Table.rows table) |}.

(** The disk after a day on which the provider sent one offer, too dear. *)
Definition nothing_accepted : world :=
  snd (AmadeusOperator.get_flight_offers
         (Sample.client (Ok [Sample.offer500]))
         "JFK" "TLV" "2025-01-03" "raw_offers_back.csv" 1 Sample.fresh).

End Scenario.

(** * Properties *)

(** ** Floating-point comparison *)

Section FloatOrder.

Lemma SFcompare_antisym (x y : spec_float) (c : comparison) :
  SFcompare x y = Some c -> SFcompare y x = Some (CompOpp c).
Proof.
  destruct x as [sx | sx | | sx mx ex], y as [sy | sy | | sy my ey]; simpl;
    intros [= <-]; try (destruct sx; reflexivity);
    try (destruct sy; reflexivity); try (destruct sx, sy; reflexivity).
  rewrite (Z.compare_antisym ey ex).
  pose proof (Pos.compare_cont_antisym mx my Eq) as Hm; simpl in Hm.
  rewrite <- Hm.
  destruct sx, sy; simpl; try reflexivity;
    destruct (ey ?= ex)%Z; simpl; try reflexivity;
    destruct (Pos.compare_cont Eq mx my); reflexivity.
Qed.

Lemma SFcompare_defined (x y : float) :
  is_nan x = false -> is_nan y = false ->
  exists c, SFcompare (Prim2SF x) (Prim2SF y) = Some c.
Proof.
  unfold is_nan. rewrite !FloatAxioms.eqb_spec. unfold SFeqb.
  destruct (Prim2SF x), (Prim2SF y); simpl; intros Hx Hy;
    try discriminate; eauto.
Qed.

(** Away from NaN, "not above" is "at most". *)
Lemma not_ltb_leb (x y : float) :
  is_nan x = false -> is_nan y = false ->
  PrimFloat.ltb y x = false -> PrimFloat.leb x y = true.
Proof.
  intros Hx Hy. rewrite FloatAxioms.ltb_spec, FloatAxioms.leb_spec.
  unfold SFltb, SFleb.
  destruct (SFcompare_defined y x Hy Hx) as [c Hc].
  rewrite Hc, (SFcompare_antisym _ _ _ Hc).
  destruct c; simpl; congruence.
Qed.

End FloatOrder.

(** ** The fetcher *)

Section Fetcher.

Import AmadeusOperator.

(** What an emitted row says about the offer it comes from. *)
Lemma offer_to_add_Some (max_price : float) (o : Offer) (r : Raw.row) :
  offer_to_add max_price o = Ok (Some r) ->
  exists it p s0,
    itineraries o !! 0%nat = Some it
    /\ PyFloat.float (total (price o)) = Some p
    /\ PrimFloat.ltb max_price p = false
    /\ segments it !! 0%nat = Some s0
    /\ Raw.Price r = p
    /\ Raw.Stops r = Z.of_nat (length (segments it)) - 1
    /\ Raw.Stops r <= 1
    /\ (Raw.Stops r = 0 ->
        Raw.IATA1_Origin r = "" /\ Raw.IATA1_Destination r = ""
        /\ Raw.Duration1 r = "")
    /\ (Raw.Stops r <> 0 ->
        exists s1, segments it !! 1%nat = Some s1
          /\ Raw.IATA1_Origin r = iataCode (departure s1)
          /\ Raw.IATA1_Destination r = iataCode (arrival s1)
          /\ Raw.Duration1 r = seg_duration s1).
Proof.
  unfold offer_to_add, index.
  destruct (itineraries o !! 0%nat) as [it|] eqn:Hit; simpl; [|discriminate].
  destruct (PyFloat.float (total (price o))) as [p|] eqn:Hp; [|discriminate].
  destruct (PrimFloat.ltb max_price p) eqn:Hlt; [discriminate|].
  destruct (1 <? Z.of_nat (length (segments it)) - 1) eqn:Hstops; [discriminate|].
  apply Z.ltb_ge in Hstops.
  destruct (segments it !! 0%nat) as [s0|] eqn:Hs0; simpl; [|discriminate].
  destruct (0 <? Z.of_nat (length (segments it)) - 1) eqn:Hpos.
  - apply Z.ltb_lt in Hpos.
    destruct (segments it !! 1%nat) as [s1|] eqn:Hs1; simpl; [|discriminate].
    intros [= <-]. exists it, p, s0. simpl.
    repeat split; auto; try lia. intros _. exists s1. auto.
  - apply Z.ltb_ge in Hpos.
    intros [= <-]. exists it, p, s0. simpl.
    repeat split; auto; try lia.
    intros Hne. apply lookup_lt_Some in Hs0. lia.
Qed.

(** The loop body emits a row for the offers that survive the filters, and
    for no other: an offer it emits a row for survives, an offer it skips
    does not. *)
Lemma offer_to_add_survives (max_price : float) (o : Offer) :
  match offer_to_add max_price o with
  | Ok (Some _) => survives max_price o = true
  | Ok None => survives max_price o = false
  | Raise _ => True
  end.
Proof.
  unfold offer_to_add, survives, index.
  destruct (itineraries o) as [|it its]; simpl; [done|].
  destruct (PyFloat.float (total (price o))) as [p|]; [|done].
  destruct (PrimFloat.ltb max_price p); simpl; [done|].
  destruct (1 <? Z.of_nat (length (segments it)) - 1) eqn:Hstops.
  - apply Z.ltb_lt in Hstops. apply Nat.leb_gt. lia.
  - apply Z.ltb_ge in Hstops.
    assert ((length (segments it) <=? 2)%nat = true) as Hle
      by (apply Nat.leb_le; lia).
    destruct (segments it !! 0%nat) as [s0|]; simpl; [|done].
    destruct (0 <? Z.of_nat (length (segments it)) - 1); [|done].
    destruct (segments it !! 1%nat) as [s1|]; simpl; done.
Qed.

(** Every field of an emitted row is read in the price object and in the
    first itinerary of its offer. *)
Lemma offer_to_add_row (max_price : float) (o : Offer) (r : Raw.row) :
  offer_to_add max_price o = Ok (Some r) -> row_from_first_itinerary o r.
Proof.
  unfold offer_to_add, row_from_first_itinerary, index.
  destruct (itineraries o !! 0%nat) as [it|] eqn:Hit; simpl; [|discriminate].
  destruct (PyFloat.float (total (price o))) as [p|] eqn:Hp; [|discriminate].
  destruct (PrimFloat.ltb max_price p); [discriminate|].
  destruct (1 <? Z.of_nat (length (segments it)) - 1) eqn:Hstops;
    [discriminate|].
  apply Z.ltb_ge in Hstops.
  destruct (segments it !! 0%nat) as [s0|] eqn:Hs0; simpl; [|discriminate].
  destruct (0 <? Z.of_nat (length (segments it)) - 1) eqn:Hpos.
  - destruct (segments it !! 1%nat) as [s1|] eqn:Hs1; simpl; [|discriminate].
    intros [= <-]. exists it, s0. simpl. rewrite Hs1. by repeat split.
  - apply Z.ltb_ge in Hpos.
    intros [= <-]. exists it, s0. simpl.
    destruct (segments it !! 1%nat) as [s1|] eqn:Hs1.
    + apply lookup_lt_Some in Hs1. lia.
    + by repeat split.
Qed.

(** The loop appends, in order, the rows of the offers that survive. *)
Lemma add_offers_appends (max_price : float) (offers : list Offer) :
  forall df df',
    _add_offers_to_df df offers max_price = Ok df' ->
    exists new,
      df' = (df ++ new)%list
      /\ Forall2 (fun o r => offer_to_add max_price o = Ok (Some r))
                 (accepted_offers max_price offers) new.
Proof.
  induction offers as [|o offers IH]; intros df df'; simpl.
  - intros [= <-]. exists []. split; [by rewrite app_nil_r | constructor].
  - pose proof (offer_to_add_survives max_price o) as Hs.
    destruct (offer_to_add max_price o) as [[r|]|e] eqn:Ho; [| |discriminate];
      rewrite Hs.
    + intros H. destruct (IH _ _ H) as (new & -> & Hnew).
      exists (r :: new). split; [by rewrite <- app_assoc | by constructor].
    + intros H. destruct (IH _ _ H) as (new & -> & Hnew). eauto.
Qed.

Lemma add_offers_rows (max_price : float) (offers : list Offer)
    (df df' : list Raw.row) :
  _add_offers_to_df df offers max_price = Ok df' ->
  exists new,
    df' = (df ++ new)%list
    /\ Forall (fun r => exists o, o ∈ offers
                         /\ offer_to_add max_price o = Ok (Some r)) new.
Proof.
  intros H. destruct (add_offers_appends _ _ _ _ H) as (new & -> & Hnew).
  exists new. split; [done|].
  apply Forall_forall. intros r Hr.
  apply list_elem_of_lookup in Hr as [i Hi].
  destruct (Forall2_lookup_r _ _ _ _ _ Hnew Hi) as (o & Ho & Hrow).
  exists o. split; [|done].
  apply list_elem_of_lookup_2 in Ho. unfold accepted_offers in Ho.
  apply list_elem_of_In, filter_In in Ho as [Ho _]. by apply list_elem_of_In.
Qed.

Lemma skipped_offer (max_price : float) (o : Offer) :
  itineraries o <> [] -> skipped_by_policy max_price o = true ->
  offer_to_add max_price o = Ok None.
Proof.
  unfold skipped_by_policy, offer_to_add, index.
  destruct (itineraries o) as [|it its]; [done|]. intros _. simpl.
  destruct (PyFloat.float (total (price o))) as [p|]; [|done].
  destruct (PrimFloat.ltb max_price p); [done|]. simpl. intros H.
  apply Nat.ltb_lt in H.
  destruct (1 <? Z.of_nat (length (segments it)) - 1) eqn:Hs; [done|].
  apply Z.ltb_ge in Hs. lia.
Qed.

End Fetcher.

Section FetcherClaims.

Import AmadeusOperator.

(** C2, as amended.  Every row the loop emits has a price that is not above
    the ceiling, which is "at most the ceiling" as soon as neither is NaN, and
    a stop count of 0 or 1, i.e. at most two segments.  An offer that has a
    first itinerary and whose total does not parse, is above the ceiling, or
    whose first itinerary has more than two segments, is skipped: no error,
    no row. *)
Theorem emitted_rows_not_above_ceiling (max_price : float) :
  (forall df offers df',
     _add_offers_to_df df offers max_price = Ok df' ->
     exists new,
       df' = (df ++ new)%list
       /\ Forall (fun r =>
            PrimFloat.ltb max_price (Raw.Price r) = false
            /\ (is_nan (Raw.Price r) = false -> is_nan max_price = false ->
                PrimFloat.leb (Raw.Price r) max_price = true)
            /\ 0 <= Raw.Stops r <= 1) new)
  /\ (forall df o rest,
        itineraries o <> [] -> skipped_by_policy max_price o = true ->
        _add_offers_to_df df (o :: rest) max_price
        = _add_offers_to_df df rest max_price).
Proof.
  split.
  - intros df offers df' H.
    destruct (add_offers_rows _ _ _ _ H) as (new & -> & Hnew).
    exists new. split; [done|].
    eapply Forall_impl; [exact Hnew|]. intros r (o & _ & Hr). simpl.
    destruct (offer_to_add_Some _ _ _ Hr)
      as (it & p & s0 & _ & _ & Hlt & Hs0 & Hp & Hst & Hle & _).
    subst p. split; [done|]. split.
    + intros Hr_nan Hm_nan. by apply not_ltb_leb.
    + apply lookup_lt_Some in Hs0. lia.
  - intros df o rest Hit Hskip. simpl.
    by rewrite (skipped_offer _ _ Hit Hskip).
Qed.

Lemma emitted_rows_not_above_ceiling_witness :
  (exists new,
     [Sample.row120] = ([] ++ new)%list
     /\ Forall (fun r =>
          PrimFloat.ltb 400 (Raw.Price r) = false
          /\ (is_nan (Raw.Price r) = false -> is_nan 400 = false ->
              PrimFloat.leb (Raw.Price r) 400 = true)
          /\ 0 <= Raw.Stops r <= 1) new)
  /\ _add_offers_to_df [] [Sample.offer500; Sample.direct "120.5"] 400
     = _add_offers_to_df [] [Sample.direct "120.5"] 400.
Proof.
  destruct (emitted_rows_not_above_ceiling 400%float) as [Hrows Hskip].
  split.
  - apply (Hrows [] [Sample.offer500; Sample.direct "120.5"]).
    vm_compute. reflexivity.
  - apply Hskip.
    + discriminate.
    + vm_compute. reflexivity.
Defined.

(** C2 as stated fails twice.  A total of ["nan"] parses, is not above the
    ceiling, and is emitted although it is not at most the ceiling; and an
    offer whose total does not parse but which has no itinerary at all is not
    skipped: the loop raises [IndexError] before it looks at the price. *)
Lemma nan_total_is_emitted :
  (exists r,
     _add_offers_to_df [] [Sample.direct "nan"] 400 = Ok [r]
     /\ PrimFloat.leb (Raw.Price r) 400 = false)
  /\ _add_offers_to_df []
       [ {| itineraries := []; price := {| total := "n/a"; currency := "EUR" |} |} ]
       400
     = Raise IndexError.
Proof.
  split; [eexists; split|]; vm_compute; reflexivity.
Qed.

(** C9.  In every row the loop emits with stop count zero the three fields of
    the second segment are the empty string; and a row in which one of them
    is not empty has stop count one and carries the fields of the second
    segment of the first itinerary of one of the offers. *)
Theorem second_segment_fields_empty_without_stop
    (df : list Raw.row) (offers : list Offer) (max_price : float)
    (df' : list Raw.row) :
  _add_offers_to_df df offers max_price = Ok df' ->
  exists new,
    df' = (df ++ new)%list
    /\ Forall (fun r =>
         (Raw.Stops r = 0 ->
          Raw.IATA1_Origin r = "" /\ Raw.IATA1_Destination r = ""
          /\ Raw.Duration1 r = "")
         /\ (Raw.IATA1_Origin r <> "" \/ Raw.IATA1_Destination r <> ""
             \/ Raw.Duration1 r <> "" ->
             Raw.Stops r = 1
             /\ exists o it s1,
                  o ∈ offers /\ itineraries o !! 0%nat = Some it
                  /\ segments it !! 1%nat = Some s1
                  /\ Raw.IATA1_Origin r = iataCode (departure s1)
                  /\ Raw.IATA1_Destination r = iataCode (arrival s1)
                  /\ Raw.Duration1 r = seg_duration s1)) new.
Proof.
  intros H. destruct (add_offers_rows _ _ _ _ H) as (new & -> & Hnew).
  exists new. split; [done|].
  eapply Forall_impl; [exact Hnew|]. intros r (o & Ho & Hr). simpl.
  destruct (offer_to_add_Some _ _ _ Hr)
    as (it & p & s0 & Hit & _ & _ & Hs0 & _ & Hst & Hle & Hzero & Hone).
  split; [exact Hzero|]. intros Hfield.
  assert (Raw.Stops r <> 0) as Hne.
  { intros Hz. destruct (Hzero Hz) as (H1 & H2 & H3).
    destruct Hfield as [?|[?|?]]; congruence. }
  split.
  - apply lookup_lt_Some in Hs0. lia.
  - destruct (Hone Hne) as (s1 & Hs1 & ? & ? & ?).
    exists o, it, s1. repeat split; assumption.
Qed.

Lemma second_segment_fields_empty_without_stop_witness :
  exists new,
    [Sample.row350; Sample.row120] = ([] ++ new)%list
    /\ Forall (fun r =>
         (Raw.Stops r = 0 ->
          Raw.IATA1_Origin r = "" /\ Raw.IATA1_Destination r = ""
          /\ Raw.Duration1 r = "")
         /\ (Raw.IATA1_Origin r <> "" \/ Raw.IATA1_Destination r <> ""
             \/ Raw.Duration1 r <> "" ->
             Raw.Stops r = 1
             /\ exists o it s1,
                  o ∈ [Sample.offer350; Sample.direct "120.5"]
                  /\ itineraries o !! 0%nat = Some it
                  /\ segments it !! 1%nat = Some s1
                  /\ Raw.IATA1_Origin r = iataCode (departure s1)
                  /\ Raw.IATA1_Destination r = iataCode (arrival s1)
                  /\ Raw.Duration1 r = seg_duration s1)) new.
Proof.
  apply (second_segment_fields_empty_without_stop []
           [Sample.offer350; Sample.direct "120.5"] 400%float).
  vm_compute. reflexivity.
Defined.

Lemma offer_to_add_first_itinerary (max_price : float) (o1 o2 : Offer) :
  same_first_itinerary o1 o2 ->
  offer_to_add max_price o1 = offer_to_add max_price o2.
Proof.
  intros [Hp Hi]. unfold offer_to_add, index. by rewrite Hp, Hi.
Qed.

(** C10.  The loop looks at an offer's first itinerary only.  The offers it
    emits a row for are those that survive the filters, for which the
    segments counted are those of the first itinerary; the row of such an
    offer takes its stop count, total duration, departure time and the
    fields of both legs from the itinerary of index 0, next to the currency
    and the price.  So two lists of offers that agree, offer by offer, on the
    price object and on the itinerary of index 0 give the same outcome, the
    same table or the same exception, whatever further itineraries the
    offers carry. *)
Theorem only_first_itinerary_is_inspected (max_price : float) :
  (forall df offers df',
     _add_offers_to_df df offers max_price = Ok df' ->
     exists new,
       df' = (df ++ new)%list
       /\ Forall2 row_from_first_itinerary
            (accepted_offers max_price offers) new)
  /\ (forall offers1 offers2 df,
        Forall2 same_first_itinerary offers1 offers2 ->
        _add_offers_to_df df offers1 max_price
        = _add_offers_to_df df offers2 max_price).
Proof.
  split.
  - intros df offers df' H.
    destruct (add_offers_appends _ _ _ _ H) as (new & -> & Hnew).
    exists new. split; [done|].
    eapply Forall2_impl; [exact Hnew|]. intros o r. apply offer_to_add_row.
  - intros offers1 offers2 df H. revert df.
    induction H as [|o1 o2 l1 l2 Ho _ IH]; intros df; simpl; [done|].
    rewrite (offer_to_add_first_itinerary max_price o1 o2 Ho).
    destruct (offer_to_add max_price o2) as [[r|]|e]; auto.
Qed.

Lemma only_first_itinerary_is_inspected_witness :
  (exists new,
     [Sample.row350; Sample.row120] = ([] ++ new)%list
     /\ Forall2 row_from_first_itinerary
          (accepted_offers 400
             [Sample.offer350; Sample.offer500; Sample.direct "120.5"]) new)
  /\ _add_offers_to_df []
       [ {| itineraries :=
              itineraries Sample.offer350 ++ itineraries Sample.offer500;
            price := price Sample.offer350 |} ] 400
     = _add_offers_to_df [] [Sample.offer350] 400.
Proof.
  destruct (only_first_itinerary_is_inspected 400%float) as [Hrows Hsame].
  split.
  - apply (Hrows []
             [Sample.offer350; Sample.offer500; Sample.direct "120.5"]).
    vm_compute. reflexivity.
  - apply Hsame. constructor; [|constructor]. split; reflexivity.
Defined.

(** C3, as amended.  A call that succeeds with a list returns the provider's
    own list, unfiltered.  What is filtered is what is written: the raw file
    gains, after its former lines, one row per offer that survives the
    filters at ceiling 400, in order; no other file changes and nothing is
    printed. *)
Theorem get_flight_offers_returns_provider_list
    (self : t) (origin destination departure_date filepath : string)
    (adults : Z) (w w' : world) (offer_lst : list Offer) :
  get_flight_offers self origin destination departure_date filepath adults w
  = (Ok (Some offer_lst), w') ->
  amadeus self origin destination departure_date adults = Ok offer_lst
  /\ exists new,
       _add_offers_to_df [] offer_lst 400 = Ok new
       /\ Forall2 (fun o r => offer_to_add 400 o = Ok (Some r))
                  (accepted_offers 400 offer_lst) new
       /\ fs w' = <[filepath := RawCsv (raw_lines w filepath ++ new)]> (fs w)
       /\ stdout w' = stdout w.
Proof.
  unfold get_flight_offers.
  destruct (PyDate.strptime_ymd departure_date) as [d|]; [|discriminate].
  destruct (PyDate.ltb d (today w)); [discriminate|].
  destruct (amadeus self origin destination departure_date adults)
    as [offers|e] eqn:Hreply; [|destruct e; discriminate].
  destruct (_add_offers_to_df [] offers 400) as [new|e] eqn:Hnew;
    [|discriminate].
  unfold to_csv_append, raw_lines.
  destruct (fs w !! filepath) as [[lines|df|m]|] eqn:Hfile;
    try discriminate; intros [= <- <-];
    (split; [done|]); exists new;
    destruct (add_offers_appends _ _ _ _ Hnew) as (new' & Heq & Hacc);
    simpl in Heq; subst new'; auto.
Qed.

Lemma get_flight_offers_returns_provider_list_witness :
  AmadeusOperator.amadeus
    (Sample.client (Ok [Sample.offer350; Sample.offer500]))
    "JFK" "TLV" "2025-01-03" 1
  = Ok [Sample.offer350; Sample.offer500]
  /\ exists new,
       _add_offers_to_df [] [Sample.offer350; Sample.offer500] 400 = Ok new
       /\ Forall2 (fun o r => offer_to_add 400 o = Ok (Some r))
                  (accepted_offers 400 [Sample.offer350; Sample.offer500]) new
       /\ fs (snd (get_flight_offers
                     (Sample.client (Ok [Sample.offer350; Sample.offer500]))
                     "JFK" "TLV" "2025-01-03" "raw_offers_back.csv" 1
                     Sample.fresh))
          = <["raw_offers_back.csv" :=
                RawCsv (raw_lines Sample.fresh "raw_offers_back.csv" ++ new)]>
              (fs Sample.fresh)
       /\ stdout (snd (get_flight_offers
                         (Sample.client (Ok [Sample.offer350; Sample.offer500]))
                         "JFK" "TLV" "2025-01-03" "raw_offers_back.csv" 1
                         Sample.fresh))
          = stdout Sample.fresh.
Proof.
  apply (get_flight_offers_returns_provider_list
           (Sample.client (Ok [Sample.offer350; Sample.offer500]))
           "JFK" "TLV" "2025-01-03" "raw_offers_back.csv" 1 Sample.fresh).
  vm_compute. reflexivity.
Defined.

(** C3 as stated fails: with one offer at 500 the call succeeds and returns
    that offer, although no offer survives the filters and no row is
    written. *)
Lemma returned_list_is_not_filtered :
  fst (get_flight_offers (Sample.client (Ok [Sample.offer500]))
         "JFK" "TLV" "2025-01-03" "raw_offers_back.csv" 1 Sample.fresh)
  = Ok (Some [Sample.offer500])
  /\ accepted_offers 400 [Sample.offer500] = []
  /\ raw_lines
       (snd (get_flight_offers (Sample.client (Ok [Sample.offer500]))
               "JFK" "TLV" "2025-01-03" "raw_offers_back.csv" 1 Sample.fresh))
       "raw_offers_back.csv"
     = [].
Proof.
  repeat split; vm_compute; reflexivity.
Qed.

End FetcherClaims.

(** ** The normaliser *)

Section Normaliser.

Import Table FlightOfferProcessor.

Variable to_timedelta_str : string -> option (option Z).
Variable to_datetime_str : string -> option (option Timestamp).

Lemma mapR_Forall2 {A B} (f : A -> result B) (l : list A) (l' : list B) :
  mapR f l = Ok l' <-> Forall2 (fun a b => f a = Ok b) l l'.
Proof.
  revert l'. induction l as [|a l IH]; intros l'; simpl.
  - split; [intros [= <-]; constructor | by inversion 1].
  - destruct (f a) as [b|e] eqn:Ha.
    + destruct (mapR f l) as [bs|e] eqn:Hl.
      * split.
        -- intros [= <-]. constructor; [done | by apply IH].
        -- inversion 1 as [|? b' ? bs' Hb Hbs]; subst.
           apply IH in Hbs. congruence.
      * split; [discriminate|].
        inversion 1 as [|? b' ? bs' Hb Hbs]; subst.
        apply IH in Hbs. discriminate.
    + split; [discriminate|]. inversion 1; congruence.
Qed.

Lemma mapR_length {A B} (f : A -> result B) (l : list A) (l' : list B) :
  mapR f l = Ok l' -> length l' = length l.
Proof.
  intros H. apply mapR_Forall2 in H. symmetry. by eapply Forall2_length.
Qed.

(** A column of cells that all parse is converted cell by cell. *)
Lemma mapR_total {A B} (f : A -> result B) (g : A -> B) (l : list A) :
  Forall (fun a => f a = Ok (g a)) l -> mapR f l = Ok (map g l).
Proof.
  induction 1 as [|a l Ha _ IH]; simpl; [done|]. by rewrite Ha, IH.
Qed.


Lemma to_timedelta_parseable (cells : list (option string)) :
  Forall (parseable to_timedelta_str) cells ->
  to_timedelta to_timedelta_str (Strings cells) = Ok (map (timedelta_of to_timedelta_str) cells).
Proof.
  intros H. simpl. apply mapR_total.
  eapply Forall_impl; [exact H|]. intros [s|]; simpl; [|done].
  destruct (to_timedelta_str s); [done | congruence].
Qed.

Lemma format_duration_length (s : series) (l : list (option string)) :
  _format_duration to_timedelta_str s = Ok l ->
  length l = match s with
             | Strings cells => length cells
             | Timedeltas cells => length cells
             end.
Proof.
  unfold _format_duration. destruct s as [cells|cells]; simpl.
  - destruct (mapR _ cells) as [tds|e] eqn:H; simpl; [|discriminate].
    intros [= <-]. rewrite length_map. by eapply mapR_length.
  - intros [= <-]. by rewrite length_map.
Qed.

Lemma set_column_length (set : row -> option string -> row) (label : string)
    (d : DataFrame) (s : list (option string)) :
  length s = length (rows d) ->
  length (rows (set_column set label d s)) = length (rows d).
Proof. intros H. simpl. rewrite length_zip_with. lia. Qed.

(** *** Every step keeps the number of rows *)

Lemma add_header_nrows (self self' : t) :
  add_header self = Ok self' -> nrows self' = nrows self.
Proof.
  unfold add_header, attribute, nrows.
  destruct (df self) as [d|]; simpl; [|discriminate].
  destruct (Nat.eqb _ _); [|discriminate]. by intros [= <-].
Qed.

Lemma iata2city_nrows (self self' : t) (w w' : world) :
  iata2city self w = (Ok self', w') -> nrows self' = nrows self /\ w' = w.
Proof.
  unfold iata2city, bind, _get_iata_city_code, lift, subscript, nrows.
  destruct (fs w !! "iata_codes.json") as [[?|?|m]|]; try discriminate.
  destruct (df self) as [d|]; simpl; [|discriminate].
  intros [= <- <-]. split; [|done]. simpl.
  repeat (rewrite length_zip_with || rewrite length_map). f_equal. lia.
Qed.

Lemma process_duration_nrows (self self' : t) :
  process_duration to_timedelta_str self = Ok self' ->
  nrows self' = nrows self.
Proof.
  unfold process_duration, subscript, nrows.
  destruct (df self) as [d|]; simpl; [|discriminate].
  destruct (_format_duration _ (Strings (map Duration (rows d))))
    as [s|e] eqn:H1; simpl; [|discriminate].
  apply format_duration_length in H1. rewrite length_map in H1.
  destruct (_format_duration _ (Strings (map Duration1 _)))
    as [s1|e] eqn:H2; simpl; [|discriminate].
  apply format_duration_length in H2.
  rewrite length_map, length_zip_with in H2.
  destruct (_format_duration _ (Strings (map Total_Duration _)))
    as [s2|e] eqn:H3; simpl; [|discriminate].
  apply format_duration_length in H3.
  rewrite length_map, !length_zip_with in H3.
  intros [= <-]. simpl.
  repeat (rewrite length_zip_with || rewrite length_map). f_equal. lia.
Qed.

Lemma format_date_nrows (self self' : t) :
  format_date to_datetime_str self = Ok self' -> nrows self' = nrows self.
Proof.
  unfold format_date, subscript, nrows.
  destruct (df self) as [d|]; simpl; [|discriminate].
  destruct (mapR _ (map Date (rows d))) as [stamps|e] eqn:H; simpl;
    [|discriminate].
  apply mapR_length in H. rewrite length_map in H.
  intros [= <-]. simpl. rewrite length_zip_with, length_map. f_equal. lia.
Qed.

Lemma series_add_length (cells cells' : list (option string)) (suffix : string) :
  series_add cells suffix = Ok cells' -> length cells' = length cells.
Proof.
  unfold series_add. destruct (has_text cells); [|discriminate].
  intros [= <-]. by rewrite length_map.
Qed.

Lemma get_stop_duration_nrows (self self' : t) :
  get_stop_duration to_timedelta_str self = Ok self' ->
  nrows self' = nrows self.
Proof.
  unfold get_stop_duration, subscript, nrows.
  destruct (df self) as [d|]; simpl; [|discriminate].
  destruct (series_add (map Total_Duration (rows d)) ":00")
    as [c1|e] eqn:Hc1; simpl; [|discriminate].
  destruct (mapR _ c1) as [total|e] eqn:H1; simpl; [|discriminate].
  destruct (series_add (map Duration (rows d)) ":00")
    as [c2|e] eqn:Hc2; simpl; [|discriminate].
  destruct (mapR _ c2) as [leg|e] eqn:H2; simpl; [|discriminate].
  destruct (series_add (map Duration1 (rows d)) ":00")
    as [c3|e] eqn:Hc3; simpl; [|discriminate].
  destruct (mapR _ c3) as [leg1|e] eqn:H3; simpl; [|discriminate].
  apply mapR_length in H1, H2, H3.
  apply series_add_length in Hc1, Hc2, Hc3.
  rewrite length_map in Hc1, Hc2, Hc3.
  unfold _format_duration. simpl. intros [= <-]. simpl.
  repeat (rewrite length_zip_with || rewrite length_map). f_equal. lia.
Qed.

Lemma eur2ils_nrows (self self' : t) (w w' : world) :
  eur2ils self w = (Ok self', w') -> nrows self' = nrows self.
Proof.
  unfold eur2ils, subscript, nrows.
  destruct (df self) as [d|] eqn:Hd; simpl; [|discriminate].
  destruct (negb _); intros [= <- _]; simpl.
  - by rewrite Hd.
  - by rewrite length_map.
Qed.

Lemma round_price_nrows (self self' : t) :
  round_price self = Ok self' -> nrows self' = nrows self.
Proof.
  unfold round_price, subscript, nrows.
  destruct (df self) as [d|]; simpl; [|discriminate].
  intros [= <-]. simpl. by rewrite length_map.
Qed.

Lemma reorder_columns_nrows (self self' : t) :
  reorder_columns self = Ok self' -> nrows self' = nrows self.
Proof.
  unfold reorder_columns, subscript, nrows.
  destruct (df self) as [d|]; simpl; [|discriminate].
  intros [= <-]. simpl. by rewrite length_map.
Qed.

(** [process] gives one row of the report for each row of the table. *)
Lemma process_nrows (self self' : t) (w w' : world) :
  process to_timedelta_str to_datetime_str self w = (Ok self', w') ->
  nrows self' = nrows self.
Proof.
  unfold process. destruct (df self) as [d|] eqn:Hd.
  - unfold bind, lift.
    destruct (add_header self) as [s1|] eqn:H1; [|discriminate].
    destruct (iata2city s1 w) as [[s2|] w2] eqn:H2; [|discriminate].
    destruct (process_duration _ s2) as [s3|] eqn:H3; [|discriminate].
    destruct (format_date _ s3) as [s4|] eqn:H4; [|discriminate].
    destruct (get_stop_duration _ s4) as [s5|] eqn:H5; [|discriminate].
    destruct (eur2ils s5 w2) as [[s6|] w6] eqn:H6; [|discriminate].
    destruct (round_price s6) as [s7|] eqn:H7; [|discriminate].
    intros [= H8 _].
    apply add_header_nrows in H1. apply iata2city_nrows in H2 as [H2 _].
    apply process_duration_nrows in H3. apply format_date_nrows in H4.
    apply get_stop_duration_nrows in H5. apply eur2ils_nrows in H6.
    apply round_price_nrows in H7. apply reorder_columns_nrows in H8.
    congruence.
  - by intros [= <- _].
Qed.

End Normaliser.

Section NormaliserClaims.

Import Table FlightOfferProcessor.

Variable to_timedelta_str : string -> option (option Z).
Variable to_datetime_str : string -> option (option Timestamp).

(** C1, on the code.  Loading a raw file of one line and [data] after it,
    then processing, leaves [length data] rows: the report has one row per
    row of the table (the one-to-one half of C1 holds), but [read_csv] has
    taken the first raw line for the header, so that raw row is lost. *)
Theorem load_then_process_loses_first_line
    (path : string) (w w1 w2 : world) (first : Raw.row) (data : list Raw.row)
    (self self' : t) :
  fs w !! path = Some (RawCsv (first :: data)) ->
  __init__ path w = (Ok self, w1) ->
  process to_timedelta_str to_datetime_str self w1 = (Ok self', w2) ->
  nrows self = Some (length data)
  /\ nrows self' = Some (length data)
  /\ (exists d, df self = Some d /\ first_line (columns d) = Some first).
Proof.
  intros Hfile Hinit Hproc.
  unfold __init__, bind, read_file, ret in Hinit. rewrite Hfile in Hinit.
  simpl in Hinit. injection Hinit as <- <-.
  apply process_nrows in Hproc. rewrite Hproc. unfold nrows. simpl.
  rewrite length_map. eauto.
Qed.

(** C4, on the code.  After a failed load [self.df] is [None]; [save_csv] to
    a path where no file exists then raises [AttributeError] instead of
    warning and returning. *)
Theorem save_csv_after_failed_load_raises (self : t) (path : string) (w : world) :
  df self = None -> fs w !! path = None ->
  save_csv self path w = (Raise AttributeError, w).
Proof.
  intros Hdf Hfile. unfold save_csv, exists_, attribute.
  rewrite Hfile, Hdf. rewrite bool_decide_eq_false_2; [done|].
  by intros [? ?].
Qed.

(** The guarded half of C4: [process] on a failed load warns and changes
    neither the object nor the disk. *)
Lemma process_after_failed_load (self : t) (w : world) :
  df self = None ->
  process to_timedelta_str to_datetime_str self w
  = (Ok self,
     print w "Warning: No DataFrame available. Processing cannot proceed.").
Proof. intros Hdf. unfold process. by rewrite Hdf. Qed.

Lemma mod_div_split (x b c : Z) :
  0 < b -> 0 < c -> (x mod (b * c)) / b = (x / b) mod c.
Proof.
  intros Hb Hc. rewrite Z.rem_mul_r by lia.
  rewrite (Z.mul_comm b), Z.div_add by lia.
  rewrite (Z.div_small (x mod b) b) by (apply Z.mod_pos_bound; lia). lia.
Qed.

(** The two numbers [hhmm] prints are the floor of the duration in minutes,
    split into hours and minutes. *)
Lemma hhmm_floor (x : Z) :
  components_days x * 24 + components_hours x = (x / 60000000000) / 60
  /\ components_minutes x = (x / 60000000000) mod 60.
Proof.
  unfold components_days, components_hours, components_minutes.
  change 86400000000000 with (3600000000000 * 24).
  rewrite (mod_div_split x 3600000000000 24) by lia.
  rewrite <- (Z.div_div x 3600000000000 24) by lia.
  change 3600000000000 with (60000000000 * 60).
  rewrite (mod_div_split x 60000000000 60) by lia.
  rewrite <- (Z.div_div x 60000000000 60) by lia.
  split; [|done].
  pose proof (Z.div_mod (x / 60000000000 / 60) 24 ltac:(lia)). lia.
Qed.




(** C8.  [save_csv] to a path where a file exists prints the warning and
    changes nothing on the disk, whatever the object holds.  Hence, for a
    loaded object and a free path, the first call writes the table there and
    prints nothing, and a second call only warns: the file keeps the content
    the first call gave it. *)
Theorem save_csv_never_overwrites (self : t) (path : string) (w : world) :
  (is_Some (fs w !! path) ->
   save_csv self path w = (Ok tt, print w (not_saved path))
   /\ fs (print w (not_saved path)) = fs w)
  /\ (forall d, df self = Some d -> fs w !! path = None ->
        exists w1,
          save_csv self path w = (Ok tt, w1)
          /\ fs w1 = <[path := ReportCsv d]> (fs w)
          /\ stdout w1 = stdout w
          /\ save_csv self path w1 = (Ok tt, print w1 (not_saved path))
          /\ fs (print w1 (not_saved path)) !! path = Some (ReportCsv d)).
Proof.
  split.
  - intros Hsome. unfold save_csv, exists_.
    by rewrite bool_decide_eq_true_2.
  - intros d Hdf Hfree. unfold save_csv at 1. unfold exists_, attribute.
    rewrite Hdf, bool_decide_eq_false_2 by (rewrite Hfree; by intros [? ?]).
    eexists. split; [done|]. simpl. split; [done|]. split; [done|].
    unfold save_csv, exists_. simpl.
    rewrite bool_decide_eq_true_2 by (rewrite lookup_insert_eq; eauto).
    split; [done|]. simpl. by rewrite lookup_insert_eq.
Qed.

End NormaliserClaims.

(** ** The model at work *)

Section Runs.

Import Table FlightOfferProcessor.

(** The fetcher wrote two raw rows; the table and the report have one. *)
Lemma load_then_process_loses_first_line_witness :
  raw_lines Sample.fetched "raw_offers_back.csv"
  = [Sample.row120; Sample.row350]
  /\ exists self' : t,
       nrows Sample.loaded = Some (length [Sample.row350])
       /\ nrows self' = Some (length [Sample.row350])
       /\ exists d, df Sample.loaded = Some d
            /\ first_line (columns d) = Some Sample.row120.
Proof.
  split; [vm_compute; reflexivity|].
  assert (fs Sample.fetched !! "raw_offers_back.csv"
          = Some (RawCsv [Sample.row120; Sample.row350])) as Hfile
    by (vm_compute; reflexivity).
  assert (__init__ "raw_offers_back.csv" Sample.fetched
          = (Ok Sample.loaded, Sample.fetched)) as Hinit
    by (vm_compute; reflexivity).
  destruct (process Sample.to_timedelta_str Sample.to_datetime_str
              Sample.loaded Sample.fetched) as [[self'|e] w2] eqn:Hproc.
  - exists self'.
    exact (load_then_process_loses_first_line
             Sample.to_timedelta_str Sample.to_datetime_str
             "raw_offers_back.csv" Sample.fetched Sample.fetched w2
             Sample.row120 [Sample.row350] Sample.loaded self'
             Hfile Hinit Hproc).
  - exfalso. vm_compute in Hproc. discriminate.
Defined.

(** [main.py] on a disk without the raw file: the load fails and warns,
    [process] warns, and [save_csv] raises. *)
Example main_without_raw_file :
  __init__ "raw_offers_back.csv" Sample.fresh
  = (Ok Sample.load_failed,
     print Sample.fresh
       "Error: The file 'raw_offers_back.csv' does not exist.")
  /\ fst (process Sample.to_timedelta_str Sample.to_datetime_str
            Sample.load_failed Sample.fresh)
     = Ok Sample.load_failed
  /\ fst (save_csv Sample.load_failed "offers_back.csv" Sample.fresh)
     = Raise AttributeError.
Proof. repeat split; vm_compute; reflexivity. Qed.

Lemma save_csv_after_failed_load_raises_witness :
  save_csv Sample.load_failed "offers_back.csv" Sample.fresh
  = (Raise AttributeError, Sample.fresh).
Proof.
  apply save_csv_after_failed_load_raises; vm_compute; reflexivity.
Defined.







Lemma save_csv_never_overwrites_witness :
  (save_csv Sample.load_failed "iata_codes.json" Sample.fresh
   = (Ok tt, print Sample.fresh (not_saved "iata_codes.json"))
   /\ fs (print Sample.fresh (not_saved "iata_codes.json")) = fs Sample.fresh)
  /\ exists (d : DataFrame) (w1 : world),
       df (Sample.table [Sample.line 0 "PT2H30M" "" "PT2H30M"]) = Some d
       /\ save_csv (Sample.table [Sample.line 0 "PT2H30M" "" "PT2H30M"])
            "offers_back.csv" Sample.fresh = (Ok tt, w1)
       /\ fs w1 = <["offers_back.csv" := ReportCsv d]> (fs Sample.fresh)
       /\ stdout w1 = stdout Sample.fresh
       /\ save_csv (Sample.table [Sample.line 0 "PT2H30M" "" "PT2H30M"])
            "offers_back.csv" w1
          = (Ok tt, print w1 (not_saved "offers_back.csv"))
       /\ fs (print w1 (not_saved "offers_back.csv")) !! "offers_back.csv"
          = Some (ReportCsv d).
Proof.
  split.
  - apply (proj1 (save_csv_never_overwrites Sample.load_failed
                    "iata_codes.json" Sample.fresh)).
    vm_compute. eauto.
  - eexists.
    destruct (proj2 (save_csv_never_overwrites
                       (Sample.table [Sample.line 0 "PT2H30M" "" "PT2H30M"])
                       "offers_back.csv" Sample.fresh)
                _ eq_refl) as (w1 & H).
    + vm_compute. reflexivity.
    + exists w1. split; [reflexivity | exact H].
Defined.

End Runs.

(** ** More on the fetcher: one day *)

Section FetcherDay.

Import AmadeusOperator.

(** The loop body raises exactly on the offers it cannot index, and then
    [IndexError]. *)
Lemma offer_to_add_Raise (max_price : float) (o : Offer) (e : exn) :
  offer_to_add max_price o = Raise e <->
  e = IndexError /\ malformed max_price o = true.
Proof.
  unfold offer_to_add, malformed, index.
  destruct (itineraries o) as [|it its]; simpl.
  { split; [by intros [= <-] | by intros [-> _]]. }
  destruct (PyFloat.float (total (price o))) as [p|].
  2:{ split; [discriminate | by intros [_ ?]]. }
  destruct (PrimFloat.ltb max_price p); simpl.
  { split; [discriminate | by intros [_ ?]]. }
  destruct (segments it) as [|s0 [|s1 rest]]; simpl.
  - split; [by intros [= <-] | by intros [-> _]].
  - split; [discriminate | by intros [_ ?]].
  - destruct (1 <? Z.of_nat (S (S (length rest))) - 1);
      [|destruct (0 <? Z.of_nat (S (S (length rest))) - 1)];
      (split; [discriminate | by intros [_ ?]]).
Qed.

Lemma add_offers_malformed (max_price : float) (offers : list Offer) :
  forall df,
    existsb (malformed max_price) offers = true ->
    _add_offers_to_df df offers max_price = Raise IndexError.
Proof.
  induction offers as [|o offers IH]; intros df; simpl; [discriminate|].
  destruct (offer_to_add max_price o) as [[r|]|e] eqn:Ho.
  - destruct (malformed max_price o) eqn:Hm; simpl; [|by apply IH].
    assert (offer_to_add max_price o = Raise IndexError) as Hr
      by (by apply offer_to_add_Raise). congruence.
  - destruct (malformed max_price o) eqn:Hm; simpl; [|by apply IH].
    assert (offer_to_add max_price o = Raise IndexError) as Hr
      by (by apply offer_to_add_Raise). congruence.
  - apply offer_to_add_Raise in Ho as [-> _]. done.
Qed.

Lemma add_offers_well_formed (max_price : float) (offers : list Offer) :
  forall df,
    existsb (malformed max_price) offers = false ->
    exists df', _add_offers_to_df df offers max_price = Ok df'.
Proof.
  induction offers as [|o offers IH]; intros df; simpl; [eauto|].
  intros H. apply orb_false_iff in H as [Ho Hrest].
  destruct (offer_to_add max_price o) as [[r|]|e] eqn:Hr; [by apply IH..|].
  apply offer_to_add_Raise in Hr as [_ Hr]. congruence.
Qed.

(** X3.  The table handed to [_add_offers_to_df] is only a prefix of its
    result: the rows added are those added to an empty table; and a list of
    offers can be processed in two parts, the second continuing from the
    table of the first, an exception of the first part ending the run. *)
Theorem add_offers_to_df_composes
    (max_price : float) (df : list Raw.row) (l1 l2 : list Offer) :
  _add_offers_to_df df l1 max_price
  = (fun new => (df ++ new)%list) <$> _add_offers_to_df [] l1 max_price
  /\ _add_offers_to_df df (l1 ++ l2) max_price
     = (_add_offers_to_df df l1 max_price
        ≫= fun df1 => _add_offers_to_df df1 l2 max_price).
Proof.
  split.
  - revert df.
    assert (forall acc df,
              _add_offers_to_df (df ++ acc) l1 max_price
              = (fun new => (df ++ new)%list)
                  <$> _add_offers_to_df acc l1 max_price) as H.
    { induction l1 as [|o l1 IH]; intros acc df; simpl; [done|].
      destruct (offer_to_add max_price o) as [[r|]|e]; [| |done].
      - rewrite <- app_assoc. apply IH.
      - apply IH. }
    intros df. rewrite <- (app_nil_r df) at 1. apply H.
  - revert df. induction l1 as [|o l1 IH]; intros df; simpl; [done|].
    destruct (offer_to_add max_price o) as [[r|]|e]; [apply IH..|done].
Qed.

(** X1.  [get_flight_offers] returns [None] exactly in two cases: the date,
    well written, is before today, or is not and the provider raised
    [ResponseError].  In both the disk is as before, and one line (the date)
    or two (the error and its code) have been printed. *)
Theorem get_flight_offers_returns_None
    (self : t) (origin destination departure_date filepath : string)
    (adults : Z) (w : world) :
  fst (get_flight_offers self origin destination departure_date filepath
         adults w) = Ok None
  <-> exists d,
        PyDate.strptime_ymd departure_date = Some d
        /\ (PyDate.ltb d (today w) = true
            /\ snd (get_flight_offers self origin destination departure_date
                      filepath adults w)
               = print w ("Error: Departure date " ++ departure_date
                          ++ " is in the past.")
            \/ PyDate.ltb d (today w) = false
               /\ exists description code,
                    amadeus self origin destination departure_date adults
                    = Raise (ResponseError description code)
                    /\ snd (get_flight_offers self origin destination
                              departure_date filepath adults w)
                       = print
                           (print w
                              ("An error occurred: " ++ description
                               ++ String "010" "Departure: " ++ origin
                               ++ ". Destination: " ++ destination))
                           code).
Proof.
  unfold get_flight_offers.
  destruct (PyDate.strptime_ymd departure_date) as [d|].
  2:{ split; [discriminate | by intros (? & ? & _)]. }
  destruct (PyDate.ltb d (today w)) eqn:Hpast.
  { split; [|done]. intros _. exists d. split; [done|]. by left. }
  destruct (amadeus self origin destination departure_date adults)
    as [offers|e] eqn:Hreply.
  - split.
    + destruct (_add_offers_to_df [] offers 400); [|discriminate].
      destruct (to_csv_append filepath a w) as [[?|?] ?]; discriminate.
    + intros (d' & [= <-] & [[? _] | (_ & ? & ? & ? & _)]); congruence.
  - split.
    + destruct e; try discriminate. intros _. exists d. split; [done|].
      right. split; [done|]. eauto.
    + intros (d' & [= <-] & [[? _] | (_ & desc & code & [= ->] & _)]);
        [congruence | done].
Qed.

(** X2.  A call of [get_flight_offers] that raises has printed nothing and
    written nothing; and it raises [IndexError] as soon as one offer of the
    answer cannot be indexed, so that the rows of the well-formed offers of
    that answer are not written either. *)
Theorem get_flight_offers_raises_without_trace
    (self : t) (origin destination departure_date filepath : string)
    (adults : Z) (w : world) :
  (forall e w',
     get_flight_offers self origin destination departure_date filepath
       adults w = (Raise e, w') -> w' = w)
  /\ (forall d offers,
        PyDate.strptime_ymd departure_date = Some d ->
        PyDate.ltb d (today w) = false ->
        amadeus self origin destination departure_date adults = Ok offers ->
        existsb (malformed 400) offers = true ->
        get_flight_offers self origin destination departure_date filepath
          adults w = (Raise IndexError, w)).
Proof.
  split.
  - intros e w'. unfold get_flight_offers.
    destruct (PyDate.strptime_ymd departure_date) as [d|];
      [|by intros [= _ <-]].
    destruct (PyDate.ltb d (today w)); [discriminate|].
    destruct (amadeus self origin destination departure_date adults)
      as [offers|e'].
    + destruct (_add_offers_to_df [] offers 400) as [df|e''];
        [|by intros [= _ <-]].
      unfold to_csv_append.
      destruct (fs w !! filepath) as [[?|?|?]|]; try discriminate;
        by intros [= _ <-].
    + destruct e'; try discriminate; by intros [= _ <-].
  - intros d offers Hd Hpast Hreply Hbad. unfold get_flight_offers.
    rewrite Hd, Hpast, Hreply.
    by rewrite (add_offers_malformed _ _ _ Hbad).
Qed.

Lemma appends_only_refl (path : string) (w : world) : appends_only path w w.
Proof.
  repeat split; auto.
  - destruct (fs w !! path) as [[old|?|?]|]; auto.
    exists []. by rewrite app_nil_r.
  - exists []. by rewrite app_nil_r.
Qed.

Lemma appends_only_trans (path : string) (w1 w2 w3 : world) :
  appends_only path w1 w2 -> appends_only path w2 w3 ->
  appends_only path w1 w3.
Proof.
  intros (Ho1 & Hp1 & [o1 Hs1] & Ht1) (Ho2 & Hp2 & [o2 Hs2] & Ht2).
  repeat split.
  - intros p Hp. rewrite Ho2, Ho1; auto.
  - destruct (fs w1 !! path) as [[old|df|m]|].
    + destruct Hp1 as [n1 Hp1]. rewrite Hp1 in Hp2.
      destruct Hp2 as [n2 Hp2]. exists (n1 ++ n2)%list.
      by rewrite app_assoc.
    + by rewrite Hp1 in Hp2.
    + by rewrite Hp1 in Hp2.
    + destruct Hp1 as [Hp1 | [l1 Hp1]]; rewrite Hp1 in Hp2.
      * destruct Hp2 as [? | [? ?]]; eauto.
      * destruct Hp2 as [n2 Hp2]. eauto.
  - exists (o1 ++ o2)%list. by rewrite Hs2, Hs1, app_assoc.
  - congruence.
Qed.

Lemma appends_only_print (path : string) (w : world) (line : string) :
  appends_only path w (print w line).
Proof.
  repeat split; auto; simpl.
  - destruct (fs w !! path) as [[old|?|?]|]; auto.
    exists []. by rewrite app_nil_r.
  - by exists [line].
Qed.

(** Whatever its arguments and its outcome, [get_flight_offers] only
    appends. *)
Lemma day_appends_only
    (self : t) (origin destination departure_date filepath : string)
    (adults : Z) (w : world) :
  appends_only filepath w
    (snd (get_flight_offers self origin destination departure_date filepath
            adults w)).
Proof.
  unfold get_flight_offers.
  destruct (PyDate.strptime_ymd departure_date) as [d|];
    [|apply appends_only_refl].
  destruct (PyDate.ltb d (today w)); [apply appends_only_print|].
  destruct (amadeus self origin destination departure_date adults)
    as [offers|e].
  - destruct (_add_offers_to_df [] offers 400) as [df|e];
      [|apply appends_only_refl].
    unfold to_csv_append.
    destruct (fs w !! filepath) as [[old|?|?]|] eqn:Hfile; simpl.
    + unfold appends_only. rewrite Hfile. simpl.
      split; [intros p Hp; by rewrite lookup_insert_ne|].
      split; [rewrite lookup_insert_eq; eauto|].
      split; [exists []; by rewrite app_nil_r | done].
    + apply appends_only_refl.
    + apply appends_only_refl.
    + unfold appends_only. rewrite Hfile. simpl.
      split; [intros p Hp; by rewrite lookup_insert_ne|].
      split; [rewrite lookup_insert_eq; eauto|].
      split; [exists []; by rewrite app_nil_r | done].
  - destruct e; try apply appends_only_refl.
    eapply appends_only_trans; apply appends_only_print.
Qed.

End FetcherDay.

(** ** Dates *)

Section CalendarFacts.

Import PyDate Calendar.

Lemma days_in_month_bounds (y m : Z) : 28 <= days_in_month y m <= 31.
Proof.
  unfold days_in_month.
  destruct (m =? 2); [destruct (is_leap y); lia|].
  destruct ((m =? 4) || (m =? 6) || (m =? 9) || (m =? 11)); lia.
Qed.

Lemma valid_iff (d : date) :
  valid d = true <->
  1 <= year d <= 9999 /\ 1 <= month d <= 12
  /\ 1 <= day d <= days_in_month (year d) (month d).
Proof.
  unfold valid. rewrite !andb_true_iff, !Z.leb_le. tauto.
Qed.

Lemma ltb_iff (a b : date) :
  ltb a b = true <->
  year a < year b
  \/ year a = year b
     /\ (month a < month b \/ month a = month b /\ day a < day b).
Proof.
  unfold ltb.
  rewrite !orb_true_iff, !andb_true_iff, !orb_true_iff, !andb_true_iff,
    !Z.ltb_lt, !Z.eqb_eq. tauto.
Qed.

Lemma leb_iff (a b : date) :
  leb a b = true <->
  year a < year b
  \/ year a = year b
     /\ (month a < month b \/ month a = month b /\ day a <= day b).
Proof.
  unfold leb. rewrite negb_true_iff, <- not_true_iff_false, ltb_iff. lia.
Qed.

Lemma date_eq (a b : date) :
  year a = year b -> month a = month b -> day a = day b -> a = b.
Proof. destruct a, b; simpl; congruence. Qed.

(** The day after a date: it exists, it is later and nothing lies between. *)
Lemma next_day_spec (d n : date) :
  valid d = true -> next_day d = Ok n ->
  valid n = true
  /\ ltb d n = true
  /\ rank d + 1 <= rank n
  /\ (forall x, valid x = true -> ltb d x = true -> leb n x = true).
Proof.
  intros Hv. apply valid_iff in Hv as (Hy & Hm & Hd). unfold next_day.
  pose proof (days_in_month_bounds (year d) (month d)) as Hb.
  pose proof (days_in_month_bounds (year d) (month d + 1)) as Hb1.
  pose proof (days_in_month_bounds (year d + 1) 1) as Hb2.
  assert (forall x, valid x = true -> ltb d x = true ->
            year d < year x
            \/ year d = year x
               /\ (month d < month x
                   \/ month d = month x /\ day d < day x
                      /\ day x <= days_in_month (year d) (month d))) as Hx.
  { intros x Hv Hlt. apply valid_iff in Hv as (_ & _ & Hdx).
    apply ltb_iff in Hlt as [?|[Heq [?|[Hmeq ?]]]]; auto.
    right. split; [done|]. right. rewrite Heq, Hmeq. lia. }
  destruct (Z.ltb_spec (day d) (days_in_month (year d) (month d))).
  - intros [= <-]. rewrite valid_iff, ltb_iff. unfold rank. simpl.
    repeat split; try lia.
    intros x Hv Hlt. apply leb_iff. simpl.
    specialize (Hx x Hv Hlt). lia.
  - destruct (Z.ltb_spec (month d) 12).
    + intros [= <-]. rewrite valid_iff, ltb_iff. unfold rank. simpl.
      repeat split; try lia.
      intros x Hv Hlt. apply leb_iff. simpl.
      pose proof Hv as Hv'.
      apply valid_iff in Hv' as (? & ? & ?). specialize (Hx x Hv Hlt). lia.
    + destruct (Z.ltb_spec (year d) 9999); [|discriminate].
      intros [= <-]. rewrite valid_iff, ltb_iff. unfold rank. simpl.
      repeat split; try lia.
      intros x Hv Hlt. apply leb_iff. simpl.
      pose proof Hv as Hv'.
      apply valid_iff in Hv' as (? & ? & ?). specialize (Hx x Hv Hlt). lia.
Qed.

(** Only the last day of the year 9999 has no day after it. *)
Lemma next_day_defined (d e : date) :
  valid d = true -> valid e = true -> ltb d e = true ->
  exists n, next_day d = Ok n.
Proof.
  intros Hv Hve Hlt. apply valid_iff in Hv as (Hy & Hm & Hd).
  apply valid_iff in Hve as (Hye & Hme & Hde). apply ltb_iff in Hlt.
  unfold next_day.
  destruct (Z.ltb_spec (day d) (days_in_month (year d) (month d))); eauto.
  destruct (Z.ltb_spec (month d) 12); eauto.
  destruct (Z.ltb_spec (year d) 9999); eauto.
  exfalso. destruct Hlt as [?|[Hyeq [?|[Hmeq ?]]]]; try lia.
  rewrite <- Hyeq, <- Hmeq in Hde. lia.
Qed.

Lemma leb_rank (a b : date) :
  valid a = true -> valid b = true -> leb a b = true -> rank a <= rank b.
Proof.
  intros Ha Hb H. apply valid_iff in Ha as (? & ? & ?).
  apply valid_iff in Hb as (? & ? & ?). apply leb_iff in H. unfold rank.
  pose proof (days_in_month_bounds (year a) (month a)).
  pose proof (days_in_month_bounds (year b) (month b)). nia.
Qed.

Lemma ltb_leb_trans (a b c : date) :
  ltb a b = true -> leb b c = true -> ltb a c = true.
Proof. rewrite !ltb_iff, leb_iff. lia. Qed.

Lemma leb_trans (a b c : date) :
  leb a b = true -> leb b c = true -> leb a c = true.
Proof. rewrite !leb_iff. lia. Qed.

Lemma leb_refl (a : date) : leb a a = true.
Proof. rewrite leb_iff. lia. Qed.

Lemma leb_ltb_cases (a b : date) :
  leb a b = true -> a = b \/ ltb a b = true.
Proof.
  rewrite leb_iff, ltb_iff. intros H.
  destruct (Z.eq_dec (day a) (day b)) as [Hd|Hd];
    destruct (Z.eq_dec (month a) (month b)) as [Hm|Hm];
    destruct (Z.eq_dec (year a) (year b)) as [Hy|Hy];
    try (right; lia).
  left. by apply date_eq.
Qed.

(** The days the loop goes through, given rounds enough: the dates from the
    current one to the last, each once, in order. *)
Lemma days_from_spec (rounds : nat) (end_date : date) :
  valid end_date = true ->
  forall current,
    valid current = true ->
    rank end_date - rank current + 1 <= Z.of_nat rounds ->
    (forall d, d ∈ days_from rounds current end_date <->
               valid d = true /\ leb current d = true
               /\ leb d end_date = true)
    /\ StronglySorted (fun a b => ltb a b = true)
         (days_from rounds current end_date).
Proof.
  intros Hend. induction rounds as [|rounds IH]; intros current Hcur Hrounds.
  - simpl. destruct (leb current end_date) eqn:Hle.
    + pose proof (leb_rank _ _ Hcur Hend Hle). lia.
    + split; [|constructor]. intros d. split; [by intros ?%elem_of_nil|].
      intros (_ & H1 & H2). pose proof (leb_trans _ _ _ H1 H2). congruence.
  - simpl. destruct (leb current end_date) eqn:Hle.
    2:{ split; [|constructor]. intros d. split; [by intros ?%elem_of_nil|].
        intros (_ & H1 & H2). pose proof (leb_trans _ _ _ H1 H2).
        congruence. }
    destruct (next_day current) as [n|e] eqn:Hn.
    + destruct (next_day_spec _ _ Hcur Hn) as (Hvn & Hlt & Hrank & Hgap).
      destruct (IH n Hvn ltac:(lia)) as [Hmem Hsorted]. split.
      * intros d. rewrite elem_of_cons, Hmem. split.
        -- intros [-> | (Hvd & Hnd & Hde)].
           ++ split; [done|]. split; [apply leb_refl | done].
           ++ split; [done|]. split; [|done].
              apply leb_iff. apply (ltb_leb_trans _ _ _ Hlt) in Hnd.
              apply ltb_iff in Hnd. lia.
        -- intros (Hvd & Hcd & Hde).
           destruct (leb_ltb_cases _ _ Hcd) as [-> | Hltd]; [by left|].
           right. split; [done|]. split; [by apply Hgap | done].
      * constructor; [done|]. apply Forall_forall. intros d Hd.
        apply Hmem in Hd as (_ & Hnd & _). by eapply ltb_leb_trans.
    + (* no day after the current one: it is the last day there is *)
      split; [|repeat constructor].
      intros d. rewrite elem_of_cons. split.
      * intros [-> | ?%elem_of_nil]; [|done].
        split; [done|]. split; [apply leb_refl | done].
      * intros (Hvd & Hcd & Hde).
        destruct (leb_ltb_cases _ _ Hcd) as [-> | Hltd]; [by left|].
        destruct (next_day_defined _ _ Hcur Hvd Hltd) as [n' Hn'].
        congruence.
Qed.

End CalendarFacts.

Section DateRoundTrip.

Import PyDate Calendar.

Lemma list_ascii_of_string_app (s1 s2 : string) :
  String.list_ascii_of_string (s1 ++ s2)
  = (String.list_ascii_of_string s1 ++ String.list_ascii_of_string s2)%list.
Proof. induction s1 as [|c s1 IH]; simpl; [done | by rewrite IH]. Qed.

(** A property checked on every number of a range holds on the range. *)
Lemma range_check (f : Z -> bool) (lo : Z) (n : nat) :
  forallb (fun i => f (lo + Z.of_nat i)) (seq 0 n) = true ->
  forall z, lo <= z < lo + Z.of_nat n -> f z = true.
Proof.
  intros H z Hz. rewrite forallb_forall in H.
  replace z with (lo + Z.of_nat (Z.to_nat (z - lo))) by lia.
  apply H. apply in_seq. lia.
Qed.

Lemma year_four_digits (y : Z) : 1000 <= y <= 9999 -> four_digits y = true.
Proof.
  intros Hy. apply (range_check four_digits 1000 (Z.to_nat 9000)); [|lia].
  vm_compute. reflexivity.
Qed.

Lemma month_two_chars (m : Z) : 1 <= m <= 12 -> two_chars month_field m = true.
Proof.
  intros Hm. apply (range_check (two_chars month_field) 1 12); [|lia].
  vm_compute. reflexivity.
Qed.

Lemma day_two_chars (d : Z) : 1 <= d <= 31 -> two_chars day_field d = true.
Proof.
  intros Hd. apply (range_check (two_chars day_field) 1 31); [|lia].
  vm_compute. reflexivity.
Qed.

Lemma strftime_read_back (d : date) :
  valid d = true -> 1000 <= year d ->
  strptime_ymd (strftime_ymd d) = Some d.
Proof.
  intros Hv Hy. apply valid_iff in Hv as (Hy' & Hm & Hd).
  pose proof (days_in_month_bounds (year d) (month d)) as Hb.
  pose proof (year_four_digits (year d) ltac:(lia)) as H4.
  pose proof (month_two_chars (month d) Hm) as H2m.
  pose proof (day_two_chars (day d) ltac:(lia)) as H2d.
  unfold strptime_ymd, strftime_ymd.
  rewrite !list_ascii_of_string_app.
  unfold four_digits in H4. unfold two_chars in H2m, H2d.
  destruct (String.list_ascii_of_string (pretty (year d)))
    as [|y1 [|y2 [|y3 [|y4 [|]]]]]; try discriminate.
  destruct (String.list_ascii_of_string (pad2 (month d)))
    as [|m1 [|m2 [|]]]; try discriminate.
  destruct (String.list_ascii_of_string (pad2 (day d)))
    as [|d1 [|d2 [|]]]; try discriminate.
  apply andb_true_iff in H4 as [Hdig Hval]. apply Z.eqb_eq in Hval.
  apply andb_true_iff in H2m as [Hdash Hmv].
  apply andb_true_iff in Hdash as [Hm1 Hm2].
  apply negb_true_iff in Hm1, Hm2.
  apply andb_true_iff in H2d as [_ Hdv].
  destruct (month_field [m1; m2]) as [mv|] eqn:Hmf; [|discriminate].
  destruct (day_field [d1; d2]) as [dv|] eqn:Hdf; [|discriminate].
  apply Z.eqb_eq in Hmv, Hdv. subst mv dv.
  change (String.list_ascii_of_string "-") with ["-"%char].
  cbn [app]. rewrite Hdig, Hval.
  cbn [until_dash]. rewrite Hm1, Hm2.
  change (Ascii.eqb "-" "-") with true. cbv iota. rewrite Hmf, Hdf.
  replace ((1 <=? year d) && (day d <=? days_in_month (year d) (month d)))
    with true
    by (symmetry; apply andb_true_iff; split; apply Z.leb_le; lia).
  by destruct d.
Qed.

(** X4.  The string the date loop builds for a day is one
    [get_flight_offers] can read, and it reads it as that day: for a date
    from the year 1000 on, [strptime] of its [strftime] is the date.  Hence
    two such dates never give the same string. *)
Theorem strptime_strftime (d : date) :
  valid d = true -> 1000 <= year d ->
  strptime_ymd (strftime_ymd d) = Some d
  /\ (forall d', valid d' = true -> 1000 <= year d' ->
                 strftime_ymd d' = strftime_ymd d -> d' = d).
Proof.
  intros Hv Hy. split; [by apply strftime_read_back|].
  intros d' Hv' Hy' Heq.
  pose proof (strftime_read_back d' Hv' Hy') as H'.
  rewrite Heq, (strftime_read_back d Hv Hy) in H'. congruence.
Qed.

End DateRoundTrip.

(** ** More on the fetcher: dates and routes *)

Section FetcherLoops.

Import AmadeusOperator Batch.

Variable self : AmadeusOperator.t.
Variables (filepath : string) (adults : Z).

Lemma next_day_before_max (current end_date : PyDate.date) :
  Calendar.valid current = true -> Calendar.valid end_date = true ->
  Calendar.leb current end_date = true ->
  PyDate.ltb end_date date_max = true ->
  exists n, Calendar.next_day current = Ok n.
Proof.
  intros Hc He Hle Hmax.
  apply (next_day_defined current date_max Hc); [done|].
  destruct (leb_ltb_cases _ _ Hle) as [-> | Hlt]; [done|].
  apply ltb_iff in Hlt. apply ltb_iff in Hmax. apply ltb_iff. lia.
Qed.

(** With rounds enough, the loop does for each day of [days_from] what
    [for_days] does. *)
Lemma date_loop_for_days (origin destination : string)
    (end_date : PyDate.date) (rounds : nat) :
  Calendar.valid end_date = true ->
  PyDate.ltb end_date date_max = true ->
  forall current w,
    Calendar.valid current = true ->
    Calendar.rank end_date - Calendar.rank current + 1 <= Z.of_nat rounds ->
    date_loop rounds self origin destination current end_date filepath
      adults w
    = for_days self origin destination
        (days_from rounds current end_date) filepath adults w.
Proof.
  intros Hend Hmax.
  induction rounds as [|rounds IH]; intros current w Hcur Hrounds; simpl.
  - destruct (Calendar.leb current end_date) eqn:Hle; [|done].
    pose proof (leb_rank _ _ Hcur Hend Hle). lia.
  - destruct (Calendar.leb current end_date) eqn:Hle; [|done]. simpl.
    destruct (get_flight_offers self origin destination
                (Calendar.strftime_ymd current) filepath adults w)
      as [[r|e] w']; [|done].
    destruct (next_day_before_max _ _ Hcur Hend Hle Hmax) as [n Hn].
    rewrite Hn.
    destruct (next_day_spec _ _ Hcur Hn) as (Hvn & _ & Hrank & _).
    apply IH; [done | lia].
Qed.

(** X5.  Between two dates, the last before [date.max],
    [get_flights_within_dates] calls [get_flight_offers] for the days of
    [days_between], one after the other, and stops at the first call that
    raises; these days are exactly the dates from [start_date] to [end_date],
    both included, each once and in order. *)
Theorem get_flights_within_dates_days
    (origin destination : string) (start_date end_date : PyDate.date) :
  Calendar.valid start_date = true -> Calendar.valid end_date = true ->
  PyDate.ltb end_date date_max = true ->
  (forall w,
     get_flights_within_dates self origin destination start_date end_date
       filepath adults w
     = for_days self origin destination (days_between start_date end_date)
         filepath adults w)
  /\ (forall d, d ∈ days_between start_date end_date <->
                Calendar.valid d = true
                /\ Calendar.leb start_date d = true
                /\ Calendar.leb d end_date = true)
  /\ StronglySorted (fun a b => PyDate.ltb a b = true)
       (days_between start_date end_date).
Proof.
  intros Hs He Hmax.
  assert (Calendar.rank end_date - Calendar.rank start_date + 1
          <= Z.of_nat (Z.to_nat (Calendar.rank end_date
                                  - Calendar.rank start_date + 1)))
    as Hrounds by lia.
  split.
  - intros w. by apply date_loop_for_days.
  - by apply days_from_spec.
Qed.

Lemma print_all_app (w : world) (l1 l2 : list string) :
  print_all w (l1 ++ l2) = print_all (print_all w l1) l2.
Proof. apply fold_left_app. Qed.

(** X6.  When the last date is before the first, no day is fetched:
    [get_flights_across_origins] succeeds for any list of origins, leaves
    the disk as it is and prints its line for each origin, in order. *)
Theorem across_origins_of_no_day
    (origin_lst : list string) (destination : string)
    (start_date end_date : PyDate.date) (w : world) :
  PyDate.ltb end_date start_date = true ->
  get_flights_across_origins self origin_lst destination start_date end_date
    filepath adults w
  = (Ok tt,
     print_all w (map (fun origin => retrieved origin destination) origin_lst)).
Proof.
  intros Hlt. revert w.
  induction origin_lst as [|origin rest IH]; intros w; simpl; [done|].
  unfold get_flights_within_dates.
  assert (forall rounds,
            date_loop rounds self origin destination start_date end_date
              filepath adults w = (Ok tt, w)) as ->.
  { intros rounds. destruct rounds; simpl; unfold Calendar.leb;
      by rewrite Hlt. }
  apply IH.
Qed.

Lemma date_loop_appends_only (origin destination : string)
    (end_date : PyDate.date) (rounds : nat) :
  forall current w,
    appends_only filepath w
      (snd (date_loop rounds self origin destination current end_date
              filepath adults w)).
Proof.
  induction rounds as [|rounds IH]; intros current w; simpl.
  - destruct (Calendar.leb current end_date); apply appends_only_refl.
  - destruct (Calendar.leb current end_date); [|apply appends_only_refl].
    pose proof (day_appends_only self origin destination
                  (Calendar.strftime_ymd current) filepath adults w) as Hday.
    destruct (get_flight_offers self origin destination
                (Calendar.strftime_ymd current) filepath adults w)
      as [[r|e] w']; [|done]. simpl in Hday.
    destruct (Calendar.next_day current) as [n|e]; [|done].
    eapply appends_only_trans; [exact Hday | apply IH].
Qed.

End FetcherLoops.

Section FetcherBatch.

Import AmadeusOperator Batch.

Variable self : AmadeusOperator.t.
Variables (filepath : string) (adults : Z).

Lemma within_dates_appends_only (origin destination : string)
    (start_date end_date : PyDate.date) (w : world) :
  appends_only filepath w
    (snd (get_flights_within_dates self origin destination start_date
            end_date filepath adults w)).
Proof. apply date_loop_appends_only. Qed.

(** X7.  Whatever their arguments and their outcome, the four fetching
    functions only append: lines after the lines of the raw file at
    [filepath] (created if there was no file) and lines on the terminal;
    every other file, and a file of another kind at [filepath], is as
    before. *)
Theorem fetching_appends_only (w : world) :
  (forall origin destination departure_date,
     appends_only filepath w
       (snd (get_flight_offers self origin destination departure_date
               filepath adults w)))
  /\ (forall origin destination start_date end_date,
        appends_only filepath w
          (snd (get_flights_within_dates self origin destination start_date
                  end_date filepath adults w)))
  /\ (forall origin destination_lst start_date end_date,
        appends_only filepath w
          (snd (get_flights_across_destinations self origin destination_lst
                  start_date end_date filepath adults w)))
  /\ (forall origin_lst destination start_date end_date,
        appends_only filepath w
          (snd (get_flights_across_origins self origin_lst destination
                  start_date end_date filepath adults w))).
Proof.
  split; [intros; apply day_appends_only|].
  split; [intros; apply within_dates_appends_only|].
  split.
  - intros origin destination_lst start_date end_date. revert w.
    induction destination_lst as [|destination rest IH]; intros w; simpl;
      [apply appends_only_refl|].
    pose proof (within_dates_appends_only origin destination start_date
                  end_date w) as Hroute.
    destruct (get_flights_within_dates self origin destination start_date
                end_date filepath adults w) as [[r|e] w']; [|done].
    simpl in Hroute.
    eapply appends_only_trans; [exact Hroute|].
    eapply appends_only_trans; [apply appends_only_print | apply IH].
  - intros origin_lst destination start_date end_date. revert w.
    induction origin_lst as [|origin rest IH]; intros w; simpl;
      [apply appends_only_refl|].
    pose proof (within_dates_appends_only origin destination start_date
                  end_date w) as Hroute.
    destruct (get_flights_within_dates self origin destination start_date
                end_date filepath adults w) as [[r|e] w']; [|done].
    simpl in Hroute.
    eapply appends_only_trans; [exact Hroute|].
    eapply appends_only_trans; [apply appends_only_print | apply IH].
Qed.

(** One day with a provider that answers well: no exception, and the file is
    still a raw file or absent. *)
Lemma day_of_good_provider (origin destination : string) (d : PyDate.date)
    (w : world) :
  answers_well self -> raw_or_absent filepath w = true ->
  Calendar.valid d = true -> 1000 <= PyDate.year d ->
  exists r w',
    get_flight_offers self origin destination (Calendar.strftime_ymd d)
      filepath adults w = (Ok r, w')
    /\ raw_or_absent filepath w' = true.
Proof.
  intros Hgood Hfile Hv Hy. unfold get_flight_offers.
  rewrite (strftime_read_back d Hv Hy).
  destruct (PyDate.ltb d (today w)); [by eauto|].
  specialize (Hgood origin destination (Calendar.strftime_ymd d) adults).
  destruct (amadeus self origin destination (Calendar.strftime_ymd d) adults)
    as [offers|e].
  - destruct (add_offers_well_formed 400 offers [] Hgood) as [df ->].
    unfold to_csv_append, raw_or_absent in *.
    destruct (fs w !! filepath) as [[old|?|?]|]; try discriminate;
      do 2 eexists; (split; [reflexivity|]); simpl;
      by rewrite lookup_insert_eq.
  - destruct e; try done. by eauto.
Qed.

Lemma for_days_of_good_provider (origin destination : string)
    (days : list PyDate.date) :
  answers_well self ->
  Forall (fun d => Calendar.valid d = true /\ 1000 <= PyDate.year d) days ->
  forall w,
    raw_or_absent filepath w = true ->
    exists w',
      for_days self origin destination days filepath adults w = (Ok tt, w')
      /\ raw_or_absent filepath w' = true.
Proof.
  intros Hgood Hdays. induction Hdays as [|d days [Hv Hy] _ IH]; intros w Hw;
    simpl; [by eauto|].
  destruct (day_of_good_provider origin destination d w Hgood Hw Hv Hy)
    as (r & w' & -> & Hw').
  by apply IH.
Qed.

(** X8.  A failing day does not stop the batch.  Between two dates from the
    year 1000 on, the last before [date.max], with a raw file or no file at
    [filepath], and a provider that fails only with [ResponseError] and
    sends no offer that cannot be indexed, [get_flights_across_origins]
    goes through every origin and returns; the file is then a raw file or
    absent. *)
Theorem batch_survives_provider_errors
    (origin_lst : list string) (destination : string)
    (start_date end_date : PyDate.date) (w : world) :
  answers_well self ->
  Calendar.valid start_date = true -> Calendar.valid end_date = true ->
  1000 <= PyDate.year start_date ->
  PyDate.ltb end_date date_max = true ->
  raw_or_absent filepath w = true ->
  exists w',
    get_flights_across_origins self origin_lst destination start_date
      end_date filepath adults w = (Ok tt, w')
    /\ raw_or_absent filepath w' = true.
Proof.
  intros Hgood Hs He Hy Hmax.
  assert (forall origin w0,
            raw_or_absent filepath w0 = true ->
            exists w',
              get_flights_within_dates self origin destination start_date
                end_date filepath adults w0 = (Ok tt, w')
              /\ raw_or_absent filepath w' = true) as Hroute.
  { intros origin w0 Hw0. unfold get_flights_within_dates.
    assert (Calendar.rank end_date - Calendar.rank start_date + 1
            <= Z.of_nat (Z.to_nat (Calendar.rank end_date
                                    - Calendar.rank start_date + 1)))
      as Hrounds by lia.
    rewrite (date_loop_for_days self filepath adults origin destination
               end_date _ He Hmax start_date w0 Hs Hrounds).
    apply for_days_of_good_provider; [done| |done].
    apply Forall_forall. intros d Hd.
    apply (days_from_spec _ _ He _ Hs Hrounds) in Hd as (Hvd & Hsd & _).
    split; [done|]. apply leb_iff in Hsd. lia. }
  revert w. induction origin_lst as [|origin rest IH]; intros w Hw; simpl;
    [by eauto|].
  destruct (Hroute origin w Hw) as (w' & -> & Hw').
  apply IH. unfold raw_or_absent in *. by simpl.
Qed.

(** X9.  A list of origins can be fetched in two parts, and so can a list
    of destinations: the second part starts from the disk and terminal the
    first part left, and is not started when the first part raised. *)
Theorem across_routes_compose
    (l1 l2 : list string) (other : string)
    (start_date end_date : PyDate.date) (w : world) :
  get_flights_across_origins self (l1 ++ l2) other start_date end_date
    filepath adults w
  = bind (get_flights_across_origins self l1 other start_date end_date
            filepath adults)
      (fun _ => get_flights_across_origins self l2 other start_date end_date
                  filepath adults) w
  /\ get_flights_across_destinations self other (l1 ++ l2) start_date
       end_date filepath adults w
     = bind (get_flights_across_destinations self other l1 start_date
               end_date filepath adults)
         (fun _ => get_flights_across_destinations self other l2 start_date
                     end_date filepath adults) w.
Proof.
  split; revert w; induction l1 as [|x l1 IH]; intros w; unfold bind in *;
    simpl; try reflexivity.
  - destruct (get_flights_within_dates self x other start_date end_date
                filepath adults w) as [[r|e] w']; [|done].
    apply IH.
  - destruct (get_flights_within_dates self other x start_date end_date
                filepath adults w) as [[r|e] w']; [|done].
    apply IH.
Qed.

End FetcherBatch.

(** ** More on the normaliser *)

Section NormaliserSteps.

Import Table FlightOfferProcessor.

Variable to_timedelta_str : string -> option (option Z).
Variable to_datetime_str : string -> option (option Timestamp).

Lemma zip_with_map_same {A B} (f : A -> B -> A) (g : A -> B) (l : list A) :
  zip_with f l (map g l) = map (fun x => f x (g x)) l.
Proof. induction l as [|x l IH]; simpl; [done | by rewrite IH]. Qed.

Lemma zip_with_map_both {A B C} (f : A -> B -> A) (h : C -> A) (g : C -> B)
    (l : list C) :
  zip_with f (map h l) (map g l) = map (fun x => f (h x) (g x)) l.
Proof. induction l as [|x l IH]; simpl; [done | by rewrite IH]. Qed.

(** When a column parses, each of its cells is formatted on its own. *)
Lemma format_duration_Ok (cells : list (option string))
    (s : list (option string)) :
  _format_duration to_timedelta_str (Strings cells) = Ok s ->
  s = map (formatted_cell to_timedelta_str) cells
  /\ Forall (parseable to_timedelta_str) cells.
Proof.
  unfold _format_duration. simpl.
  destruct (mapR (to_timedelta_cell to_timedelta_str) cells) as [tds|e] eqn:H;
    simpl; [|discriminate].
  intros [= <-]. apply mapR_Forall2 in H.
  induction H as [|c x cells tds Hc _ [IH1 IH2]]; simpl; [done|].
  destruct c as [str|]; simpl in *.
  - destruct (to_timedelta_str str) as [y|] eqn:Hs; [|discriminate].
    injection Hc as <-. split; [by rewrite IH1|].
    constructor; [simpl; congruence | done].
  - injection Hc as <-. split; [by rewrite IH1 | by constructor].
Qed.

Lemma to_datetime_Ok (cells : list (option string))
    (stamps : list (option Timestamp)) :
  mapR (to_datetime_cell to_datetime_str) cells = Ok stamps ->
  map (fun x => match x with Some x => Some (strftime x) | None => None end)
      stamps
  = map (date_cell to_datetime_str) cells.
Proof.
  intros H. apply mapR_Forall2 in H.
  induction H as [|c x cells stamps Hc _ IH]; simpl; [done|].
  rewrite IH. f_equal. destruct c as [str|]; simpl in *.
  - destruct (to_datetime_str str) as [y|]; [|discriminate].
    by injection Hc as <-.
  - by injection Hc as <-.
Qed.

Lemma series_add_Ok (cells cells' : list (option string)) (suffix : string) :
  series_add cells suffix = Ok cells' ->
  cells' = map (add_str suffix) cells /\ has_text cells = true.
Proof.
  unfold series_add. destruct (has_text cells); [|discriminate].
  by intros [= <-].
Qed.

Lemma to_timedelta_Ok (cells : list (option string)) (tds : list (option Z)) :
  mapR (to_timedelta_cell to_timedelta_str) cells = Ok tds ->
  tds = map (timedelta_of to_timedelta_str) cells.
Proof.
  intros H. apply mapR_Forall2 in H.
  induction H as [|c x cells tds Hc _ IH]; simpl; [done|].
  rewrite IH. f_equal. destruct c as [str|]; simpl in *.
  - destruct (to_timedelta_str str) as [y|]; [|discriminate].
    by injection Hc as <-.
  - by injection Hc as <-.
Qed.

Lemma stop_cell_timedeltas (r : row) :
  match td_sub
          (td_sub (timedelta_of to_timedelta_str
                     (add_str ":00" (Total_Duration r)))
                  (timedelta_of to_timedelta_str
                     (add_str ":00" (Duration r))))
          (timedelta_of to_timedelta_str (add_str ":00" (Duration1 r))) with
  | Some x => Some (hhmm x)
  | None => None
  end
  = stop_cell to_timedelta_str r.
Proof.
  unfold stop_cell.
  destruct (Total_Duration r) as [a|], (Duration r) as [b|],
    (Duration1 r) as [c|]; simpl; try done;
    repeat match goal with
           | |- context [to_timedelta_str ?s] =>
               destruct (to_timedelta_str s) as [[?|]|]; simpl
           end; done.
Qed.

(** *** What each step makes of the rows, when it succeeds *)

Lemma add_header_rows (self self' : t) (d : DataFrame) :
  add_header self = Ok self' -> df self = Some d ->
  self' = with_df self
            {| columns := {| first_line := None; names := canonical_header |};
               rows := rows d |}
  /\ width (columns d) = 11%nat.
Proof.
  unfold add_header, attribute. intros H Hd. rewrite Hd in H. simpl in H.
  destruct (Nat.eqb_spec (width (columns d)) 11); [|discriminate].
  by injection H as <-.
Qed.

Lemma iata2city_rows (self self' : t) (d : DataFrame) (w w' : world) :
  iata2city self w = (Ok self', w') -> df self = Some d ->
  exists iata_city cols,
    fs w !! "iata_codes.json" = Some (JsonMap iata_city)
    /\ w' = w
    /\ self' = with_df self
                 {| columns := cols;
                    rows := map (with_cities iata_city) (rows d) |}.
Proof.
  unfold iata2city, bind, _get_iata_city_code, lift, subscript.
  intros H Hd. rewrite Hd in H.
  destruct (fs w !! "iata_codes.json") as [[?|?|m]|]; try discriminate.
  simpl in H. injection H as <- <-. exists m. eexists.
  split; [done|]. split; [done|]. f_equal. unfold set_column. simpl.
  f_equal. rewrite !zip_with_map_same, !map_map. reflexivity.
Qed.

Lemma process_duration_rows (self self' : t) (d : DataFrame) :
  process_duration to_timedelta_str self = Ok self' -> df self = Some d ->
  exists cols,
    self' = with_df self
              {| columns := cols;
                 rows := map (with_durations to_timedelta_str) (rows d) |}.
Proof.
  unfold process_duration, subscript. intros H Hd. rewrite Hd in H.
  simpl in H.
  destruct (_format_duration _ (Strings (map Duration (rows d))))
    as [s|e] eqn:H1; simpl in H; [|discriminate].
  apply format_duration_Ok in H1 as [-> _].
  destruct (_format_duration _ (Strings (map Duration1 _)))
    as [s1|e] eqn:H2; simpl in H; [|discriminate].
  apply format_duration_Ok in H2 as [-> _].
  destruct (_format_duration _ (Strings (map Total_Duration _)))
    as [s2|e] eqn:H3; simpl in H; [|discriminate].
  apply format_duration_Ok in H3 as [-> _].
  injection H as <-. eexists. f_equal. unfold set_column. simpl. f_equal.
  rewrite !map_map, !zip_with_map_same, !map_map. reflexivity.
Qed.

Lemma format_date_rows (self self' : t) (d : DataFrame) :
  format_date to_datetime_str self = Ok self' -> df self = Some d ->
  exists cols,
    self' = with_df self
              {| columns := cols;
                 rows := map (with_date to_datetime_str) (rows d) |}.
Proof.
  unfold format_date, subscript. intros H Hd. rewrite Hd in H. simpl in H.
  destruct (mapR _ (map Date (rows d))) as [stamps|e] eqn:H1; simpl in H;
    [|discriminate].
  apply to_datetime_Ok in H1. injection H as <-. eexists. f_equal.
  unfold set_column. simpl. f_equal.
  rewrite H1, map_map, zip_with_map_same. reflexivity.
Qed.

Lemma get_stop_duration_rows (self self' : t) (d : DataFrame) :
  get_stop_duration to_timedelta_str self = Ok self' -> df self = Some d ->
  exists cols,
    self' = with_df self
              {| columns := cols;
                 rows := map (with_stop to_timedelta_str) (rows d) |}.
Proof.
  unfold get_stop_duration, subscript. intros H Hd. rewrite Hd in H.
  simpl in H.
  destruct (series_add (map Total_Duration (rows d)) ":00")
    as [c1|e] eqn:Hc1; simpl in H; [|discriminate].
  apply series_add_Ok in Hc1 as [-> _].
  destruct (mapR _ (map (add_str ":00") (map Total_Duration (rows d))))
    as [total|e] eqn:H1; simpl in H; [|discriminate].
  apply to_timedelta_Ok in H1 as ->.
  destruct (series_add (map Duration (rows d)) ":00")
    as [c2|e] eqn:Hc2; simpl in H; [|discriminate].
  apply series_add_Ok in Hc2 as [-> _].
  destruct (mapR _ (map (add_str ":00") (map Duration (rows d))))
    as [leg|e] eqn:H2; simpl in H; [|discriminate].
  apply to_timedelta_Ok in H2 as ->.
  destruct (series_add (map Duration1 (rows d)) ":00")
    as [c3|e] eqn:Hc3; simpl in H; [|discriminate].
  apply series_add_Ok in Hc3 as [-> _].
  destruct (mapR _ (map (add_str ":00") (map Duration1 (rows d))))
    as [leg1|e] eqn:H3; simpl in H; [|discriminate].
  apply to_timedelta_Ok in H3 as ->.
  unfold _format_duration in H. simpl in H. injection H as <-.
  eexists. f_equal. unfold set_column. simpl. f_equal.
  clear. induction (rows d) as [|r l IH]; simpl; [done|].
  rewrite IH. f_equal. unfold with_stop. f_equal. apply stop_cell_timedeltas.
Qed.

Lemma forallb_is_eur_map (f : row -> row) (l : list row) :
  (forall r, Currency (f r) = Currency r) ->
  forallb is_eur (map f l) = forallb is_eur l.
Proof.
  intros Hf. induction l as [|r l IH]; simpl; [done|].
  rewrite IH. f_equal. unfold is_eur. by rewrite Hf.
Qed.

Lemma eur2ils_rows (self self' : t) (d : DataFrame) (w w' : world) :
  eur2ils self w = (Ok self', w') -> df self = Some d ->
  self' = with_df self
            {| columns := columns d;
               rows := map (fun r => if forallb is_eur (rows d)
                                     then converted r else r) (rows d) |}
  /\ w' = if forallb is_eur (rows d) then w
          else print w "Not all prices are in EUR!!!".
Proof.
  unfold eur2ils, subscript. intros H Hd. rewrite Hd in H.
  destruct (forallb is_eur (rows d)); cbn [negb] in H;
    injection H as <- <-; (split; [|done]).
  - reflexivity.
  - rewrite map_id. destruct self as [path o]. simpl in Hd. subst o.
    by destruct d.
Qed.

Lemma round_price_rows (self self' : t) (d : DataFrame) :
  round_price self = Ok self' -> df self = Some d ->
  self' = with_df self
            {| columns := columns d;
               rows := map with_rounded_price (rows d) |}.
Proof.
  unfold round_price, subscript. intros H Hd. rewrite Hd in H.
  by injection H as <-.
Qed.

Lemma reorder_columns_rows (self self' : t) (d : DataFrame) :
  reorder_columns self = Ok self' -> df self = Some d ->
  self' = with_df self
            {| columns := report_header; rows := map report_row (rows d) |}.
Proof.
  unfold reorder_columns, subscript. intros H Hd. rewrite Hd in H.
  by injection H as <-.
Qed.

(** [process] on a loaded table, when it succeeds: the report has one row
    for each row of the table, computed from that row alone, the side map
    and whether every row is in EUR; the warning is printed in the other
    case. *)
Lemma process_rows (self self' : t) (d : DataFrame) (w w' : world) :
  process to_timedelta_str to_datetime_str self w = (Ok self', w') ->
  df self = Some d ->
  exists iata_city,
    fs w !! "iata_codes.json" = Some (JsonMap iata_city)
    /\ width (columns d) = 11%nat
    /\ self' = with_df self
                 {| columns := report_header;
                    rows := map (report_of to_timedelta_str to_datetime_str
                                   iata_city (forallb is_eur (rows d)))
                                (rows d) |}
    /\ w' = if forallb is_eur (rows d) then w
            else print w "Not all prices are in EUR!!!".
Proof.
  unfold process. intros H Hd. rewrite Hd in H. unfold bind, lift in H.
  destruct (add_header self) as [s1|] eqn:H1; [|discriminate].
  destruct (add_header_rows _ _ _ H1 Hd) as [-> Hwidth].
  destruct (iata2city _ w) as [[s2|] w2] eqn:H2; [|discriminate].
  destruct (iata2city_rows _ _ _ _ _ H2 eq_refl)
    as (m & c2 & Hm & -> & ->).
  destruct (process_duration _ _) as [s3|] eqn:H3; [|discriminate].
  destruct (process_duration_rows _ _ _ H3 eq_refl) as (c3 & ->).
  destruct (format_date _ _) as [s4|] eqn:H4; [|discriminate].
  destruct (format_date_rows _ _ _ H4 eq_refl) as (c4 & ->).
  destruct (get_stop_duration _ _) as [s5|] eqn:H5; [|discriminate].
  destruct (get_stop_duration_rows _ _ _ H5 eq_refl) as (c5 & ->).
  destruct (eur2ils _ w) as [[s6|] w6] eqn:H6; [|discriminate].
  destruct (eur2ils_rows _ _ _ _ _ H6 eq_refl) as [-> ->].
  destruct (round_price _) as [s7|] eqn:H7; [|discriminate].
  pose proof (round_price_rows _ _ _ H7 eq_refl) as ->.
  destruct (reorder_columns _) as [s8|] eqn:H8; [|discriminate].
  pose proof (reorder_columns_rows _ _ _ H8 eq_refl) as ->.
  injection H as <- <-.
  clear H1 H2 H3 H4 H5 H6 H7 H8.
  exists m. split; [done|]. split; [done|].
  cbn [rows columns df with_df filepath].
  rewrite !map_map.
  rewrite (forallb_is_eur_map
             (fun r => with_stop to_timedelta_str
                         (with_date to_datetime_str
                            (with_durations to_timedelta_str
                               (with_cities m r)))) (rows d))
    by reflexivity.
  split; reflexivity.
Qed.

End NormaliserSteps.

Section NormaliserMore.

Import Table FlightOfferProcessor.

Variable to_timedelta_str : string -> option (option Z).
Variable to_datetime_str : string -> option (option Timestamp).

(** X10.  When [process] succeeds on a loaded table, the side file was
    there, the report has the fourteen labels of [new_order], in that
    order, and as many rows as the table, and its row of index [i] is
    [report_of] of the row of index [i] of the table: the rows keep their
    order, and a row of the report is made from its row of the table, the
    side map, the two parsers and the one test whether every row is in EUR.
    The parsers are those pandas applies to the cells of the column; where
    pandas settles a date format for the whole column, [to_datetime_str] is
    the reading of a cell in that format. *)
Theorem process_is_row_wise (self self' : t) (d : DataFrame) (w w' : world) :
  process to_timedelta_str to_datetime_str self w = (Ok self', w') ->
  df self = Some d ->
  exists iata_city d',
    fs w !! "iata_codes.json" = Some (JsonMap iata_city)
    /\ df self' = Some d'
    /\ filepath self' = filepath self
    /\ names (columns d') = new_order
    /\ width (columns d') = 14%nat
    /\ length (rows d') = length (rows d)
    /\ (forall i r,
          rows d !! i = Some r ->
          rows d' !! i
          = Some (report_of to_timedelta_str to_datetime_str iata_city
                    (forallb is_eur (rows d)) r)).
Proof.
  intros H Hd.
  destruct (process_rows _ _ _ _ _ _ _ H Hd) as (m & Hm & _ & -> & _).
  exists m. eexists. split; [done|]. split; [reflexivity|].
  split; [done|]. split; [done|]. split; [done|]. simpl.
  split; [by rewrite length_map|].
  intros i r Hi. by rewrite list_lookup_fmap, Hi.
Qed.

(** X11.  After a successful [process] of a loaded table, either nothing was
    printed and every row of the report is in ILS, or the warning was
    printed, some row of the table was not in EUR, and every row of the
    report has the currency it had in the table. *)
Theorem process_converts_all_or_none
    (self self' : t) (d : DataFrame) (w w' : world) :
  process to_timedelta_str to_datetime_str self w = (Ok self', w') ->
  df self = Some d ->
  exists d',
    df self' = Some d'
    /\ (w' = w /\ Forall (fun r => Currency r = Some "ILS") (rows d')
        \/ w' = print w "Not all prices are in EUR!!!"
           /\ map Currency (rows d') = map Currency (rows d)
           /\ Exists (fun r => Currency r <> Some "EUR") (rows d)).
Proof.
  intros H Hd.
  destruct (process_rows _ _ _ _ _ _ _ H Hd) as (m & _ & _ & -> & ->).
  eexists. split; [reflexivity|]. simpl.
  destruct (forallb is_eur (rows d)) eqn:Hall.
  - left. split; [done|]. apply Forall_map, Forall_forall.
    intros r _. reflexivity.
  - right. split; [done|]. split.
    + rewrite map_map. apply map_ext. intros r. reflexivity.
    + clear -Hall. induction (rows d) as [|r l IH]; [discriminate|].
      simpl in Hall. apply andb_false_iff in Hall as [Hr | Hl].
      * apply Exists_cons_hd. unfold is_eur in Hr.
        destruct (Currency r) as [c|]; [|done].
        intros [= ->]. discriminate.
      * apply Exists_cons_tl. by apply IH.
Qed.

(** X12.  [process] cannot be run twice.  The object a successful
    [process] of a loaded table leaves holds a table of fourteen columns,
    and [add_header] has eleven labels: on that object [process] raises
    [ValueError], whatever the disk, and touches nothing. *)
Theorem process_twice_raises (self self' : t) (d : DataFrame) (w w' : world) :
  process to_timedelta_str to_datetime_str self w = (Ok self', w') ->
  df self = Some d ->
  exists d',
    df self' = Some d'
    /\ width (columns d') = 14%nat
    /\ length canonical_header = 11%nat
    /\ add_header self' = Raise ValueError
    /\ (forall w2,
          process to_timedelta_str to_datetime_str self' w2
          = (Raise ValueError, w2)).
Proof.
  intros H Hd.
  destruct (process_rows _ _ _ _ _ _ _ H Hd) as (m & _ & _ & -> & _).
  eexists. split; [reflexivity|]. by repeat split.
Qed.

Lemma format_duration_total (cells : list (option string)) :
  Forall (parseable to_timedelta_str) cells ->
  _format_duration to_timedelta_str (Strings cells)
  = Ok (map (formatted_cell to_timedelta_str) cells).
Proof.
  intros H. unfold _format_duration.
  rewrite (to_timedelta_parseable _ _ H). simpl. f_equal.
  rewrite map_map. apply map_ext. intros [s|]; simpl; [|done].
  by destruct (to_timedelta_str s) as [[x|]|].
Qed.

Lemma to_datetime_total (cells : list (option string)) :
  Forall (date_parseable to_datetime_str) cells ->
  exists stamps,
    mapR (to_datetime_cell to_datetime_str) cells = Ok stamps.
Proof.
  induction 1 as [|c cells Hc _ [stamps IH]]; simpl; [by eauto|].
  rewrite IH. destruct c as [s|]; simpl in *; [|by eauto].
  destruct (to_datetime_str s); [by eauto | done].
Qed.

Lemma clock_column_total (get : row -> option string) (i : nat)
    (l : list row) :
  (forall r, clock_cells r !! i = Some (add_str ":00" (get r))) ->
  Forall (fun r => Forall (parseable to_timedelta_str) (clock_cells r)) l ->
  mapR (to_timedelta_cell to_timedelta_str)
       (map (add_str ":00") (map get l))
  = Ok (map (fun r => timedelta_of to_timedelta_str (add_str ":00" (get r)))
            l).
Proof.
  intros Hget Hcells. rewrite map_map.
  rewrite <- (map_map (fun r => add_str ":00" (get r))
                      (timedelta_of to_timedelta_str)).
  apply (to_timedelta_parseable to_timedelta_str).
  apply Forall_map. eapply Forall_impl; [exact Hcells|].
  intros r Hr. simpl. eapply Forall_lookup_1; [exact Hr | apply Hget].
Qed.

Lemma add_header_total (self : t) (d : DataFrame) :
  df self = Some d -> width (columns d) = 11%nat ->
  add_header self
  = Ok (with_df self
          {| columns := {| first_line := None; names := canonical_header |};
             rows := rows d |}).
Proof.
  intros Hd Hw. unfold add_header, attribute. rewrite Hd. simpl.
  by rewrite Hw.
Qed.

Lemma iata2city_total (self : t) (d : DataFrame) (w : world)
    (iata_city : gmap string string) :
  df self = Some d ->
  fs w !! "iata_codes.json" = Some (JsonMap iata_city) ->
  exists cols,
    iata2city self w
    = (Ok (with_df self
             {| columns := cols;
                rows := map (with_cities iata_city) (rows d) |}), w).
Proof.
  intros Hd Hm. unfold iata2city, bind, _get_iata_city_code, lift, subscript.
  rewrite Hm, Hd. simpl. eexists. do 3 f_equal. unfold set_column. simpl.
  f_equal. rewrite !zip_with_map_same, !map_map. reflexivity.
Qed.

Lemma process_duration_total (self : t) (d : DataFrame) :
  df self = Some d ->
  Forall (fun r =>
            parseable to_timedelta_str (Duration r)
            /\ parseable to_timedelta_str (Duration1 r)
            /\ parseable to_timedelta_str (Total_Duration r)) (rows d) ->
  exists cols,
    process_duration to_timedelta_str self
    = Ok (with_df self
            {| columns := cols;
               rows := map (with_durations to_timedelta_str) (rows d) |}).
Proof.
  intros Hd H. eexists. unfold process_duration, subscript. rewrite Hd. simpl.
  rewrite format_duration_total
    by (apply Forall_map; eapply Forall_impl; [exact H|]; by intros r (? & _)).
  simpl.
  repeat (rewrite map_map || rewrite zip_with_map_same
          || rewrite zip_with_map_both).
  rewrite format_duration_total
    by (apply Forall_map; eapply Forall_impl; [exact H|];
        by intros r (_ & ? & _)).
  simpl.
  repeat (rewrite map_map || rewrite zip_with_map_same
          || rewrite zip_with_map_both).
  rewrite format_duration_total
    by (apply Forall_map; eapply Forall_impl; [exact H|];
        by intros r (_ & _ & ?)).
  simpl. do 2 f_equal. unfold set_column. simpl. f_equal.
  repeat (rewrite map_map || rewrite zip_with_map_same
          || rewrite zip_with_map_both).
  reflexivity.
Qed.

Lemma format_date_total (self : t) (d : DataFrame) :
  df self = Some d ->
  Forall (fun r => date_parseable to_datetime_str (Date r)) (rows d) ->
  exists cols,
    format_date to_datetime_str self
    = Ok (with_df self
            {| columns := cols;
               rows := map (with_date to_datetime_str) (rows d) |}).
Proof.
  intros Hd H. unfold format_date, subscript. rewrite Hd. simpl.
  destruct (to_datetime_total (map Date (rows d))) as [stamps Hs];
    [by apply Forall_map|].
  rewrite Hs. simpl. apply to_datetime_Ok in Hs. rewrite Hs.
  eexists. do 2 f_equal. unfold set_column. simpl. f_equal.
  rewrite map_map, zip_with_map_same. reflexivity.
Qed.

Lemma get_stop_duration_total (self : t) (d : DataFrame) :
  df self = Some d ->
  has_text (map Total_Duration (rows d)) = true ->
  has_text (map Duration (rows d)) = true ->
  has_text (map Duration1 (rows d)) = true ->
  Forall (fun r => Forall (parseable to_timedelta_str) (clock_cells r))
         (rows d) ->
  exists cols,
    get_stop_duration to_timedelta_str self
    = Ok (with_df self
            {| columns := cols;
               rows := map (with_stop to_timedelta_str) (rows d) |}).
Proof.
  intros Hd Ht0 Ht1 Ht2 Hcells.
  unfold get_stop_duration, subscript, series_add.
  rewrite Hd. simpl. rewrite Ht0, Ht1, Ht2. simpl.
  rewrite (clock_column_total Total_Duration 0%nat) by done. simpl.
  rewrite (clock_column_total Duration 1%nat) by done. simpl.
  rewrite (clock_column_total Duration1 2%nat) by done. simpl.
  unfold _format_duration. simpl. eexists. do 2 f_equal.
  unfold set_column. simpl. f_equal.
  clear. induction (rows d) as [|r l IH]; simpl; [done|].
  rewrite IH. f_equal. unfold with_stop. f_equal.
  apply stop_cell_timedeltas.
Qed.

Lemma eur2ils_total (self : t) (d : DataFrame) (w : world) :
  df self = Some d ->
  eur2ils self w
  = (Ok (with_df self
           {| columns := columns d;
              rows := map (fun r => if forallb is_eur (rows d)
                                    then converted r else r) (rows d) |}),
     if forallb is_eur (rows d) then w
     else print w "Not all prices are in EUR!!!").
Proof.
  intros Hd. unfold eur2ils, subscript. rewrite Hd.
  destruct (forallb is_eur (rows d)); cbn [negb]; [reflexivity|].
  rewrite map_id. destruct self as [path o]. simpl in Hd. subst o.
  by destruct d.
Qed.

(** X13.  [process] succeeds on every table that is [processable], when the
    side file is there: it returns the report of [report_of], row by row,
    under the header of the report, and prints the warning exactly when
    some row is not in EUR. *)
Theorem process_succeeds (self : t) (d : DataFrame) (w : world)
    (iata_city : gmap string string) :
  df self = Some d ->
  fs w !! "iata_codes.json" = Some (JsonMap iata_city) ->
  processable to_timedelta_str to_datetime_str d ->
  process to_timedelta_str to_datetime_str self w
  = processed to_timedelta_str to_datetime_str iata_city self d w.
Proof.
  intros Hd Hm (Hwidth & Hcells & Ht0 & Ht1 & Ht2 & Hclock).
  unfold process, processed. rewrite Hd. unfold bind, lift.
  rewrite (add_header_total self d Hd Hwidth).
  match goal with
  | |- context [iata2city ?s w] =>
      destruct (iata2city_total s _ w iata_city eq_refl Hm) as [c2 ->]
  end.
  match goal with
  | |- context [process_duration _ ?s] =>
      destruct (process_duration_total s _ eq_refl) as [c3 ->]
  end.
  { cbn [rows]. apply Forall_map. eapply Forall_impl; [exact Hcells|].
    intros r (? & ? & ? & _). by repeat split. }
  match goal with
  | |- context [format_date _ ?s] =>
      destruct (format_date_total s _ eq_refl) as [c4 ->]
  end.
  { cbn [rows]. do 2 apply Forall_map. eapply Forall_impl; [exact Hcells|].
    intros r (_ & _ & _ & ?). done. }
  match goal with
  | |- context [get_stop_duration _ ?s] =>
      destruct (get_stop_duration_total s _ eq_refl) as [c5 ->]
  end.
  { cbn [rows]. rewrite !map_map. exact Ht0. }
  { cbn [rows]. rewrite !map_map. exact Ht1. }
  { cbn [rows]. rewrite !map_map. exact Ht2. }
  { cbn [rows]. do 3 apply Forall_map. eapply Forall_impl; [exact Hclock|].
    intros r Hr. exact Hr. }
  match goal with
  | |- context [eur2ils ?s w] => rewrite (eur2ils_total s _ w eq_refl)
  end.
  cbn [rows columns df with_df filepath].
  rewrite !map_map.
  rewrite (forallb_is_eur_map
             (fun r => with_stop to_timedelta_str
                         (with_date to_datetime_str
                            (with_durations to_timedelta_str
                               (with_cities iata_city r)))) (rows d))
    by reflexivity.
  unfold round_price, reorder_columns, subscript.
  cbn [rows columns df with_df filepath mbind result_bind].
  rewrite !map_map. reflexivity.
Qed.

End NormaliserMore.

Section NormaliserDisk.

Import Table FlightOfferProcessor.

Variable to_timedelta_str : string -> option (option Z).
Variable to_datetime_str : string -> option (option Timestamp).

Lemma iata2city_world (self : t) (w : world) : snd (iata2city self w) = w.
Proof.
  unfold iata2city, bind, _get_iata_city_code, lift.
  destruct (fs w !! "iata_codes.json") as [[?|?|m]|]; try done.
Qed.

Lemma eur2ils_fs (self : t) (w : world) : fs (snd (eur2ils self w)) = fs w.
Proof.
  unfold eur2ils. destruct (subscript self) as [d|e]; [|done].
  by destruct (negb (forallb is_eur (rows d))).
Qed.

(** X14.  The normaliser writes in [save_csv] only.  Loading and [process]
    leave the disk as it is, whatever they return or raise; [save_csv]
    leaves every file other than the one at [path] as it is, and the disk
    as a whole when there is a file at [path] or no table to save. *)
Theorem normaliser_writes_only_in_save :
  (forall path w, fs (snd (__init__ path w)) = fs w)
  /\ (forall self w,
        fs (snd (process to_timedelta_str to_datetime_str self w)) = fs w)
  /\ (forall self path w,
        (forall p, p <> path ->
                   fs (snd (save_csv self path w)) !! p = fs w !! p)
        /\ (is_Some (fs w !! path) \/ df self = None ->
            fs (snd (save_csv self path w)) = fs w)).
Proof.
  split; [|split].
  - intros path w. unfold __init__, bind, read_file, ret.
    destruct (fs w !! path) as [[lines|?|?]|]; try done.
    by destruct (read_csv lines).
  - intros self w. unfold process.
    destruct (df self) as [d|]; [|done]. unfold bind, lift.
    destruct (add_header self) as [s1|]; [|done].
    pose proof (iata2city_world s1 w) as Hw.
    destruct (iata2city s1 w) as [[s2|] w2]; simpl in Hw; subst w2; [|done].
    destruct (process_duration _ s2) as [s3|]; [|done].
    destruct (format_date _ s3) as [s4|]; [|done].
    destruct (get_stop_duration _ s4) as [s5|]; [|done].
    pose proof (eur2ils_fs s5 w) as Hfs.
    destruct (eur2ils s5 w) as [[s6|] w6]; simpl in Hfs; [|done].
    destruct (round_price s6) as [s7|]; [|done].
    by destruct (reorder_columns s7).
  - intros self path w. unfold save_csv, exists_, attribute. split.
    + intros p Hp. case_bool_decide; [done|].
      destruct (df self); [|done]. simpl. by rewrite lookup_insert_ne.
    + intros [Hsome | Hnone].
      * by rewrite bool_decide_eq_true_2.
      * rewrite Hnone. by case_bool_decide.
Qed.

(** X15.  A fetch that finds no file and accepts no offer leaves an empty
    raw file, and loading an empty raw file is not the failed load the
    normaliser provides for: the constructor raises [EmptyDataError]. *)
Theorem fetch_without_accepted_offer_breaks_load
    (self : AmadeusOperator.t)
    (origin destination departure_date path : string) (adults : Z)
    (w w' : world) (offers : list Offer) :
  fs w !! path = None ->
  AmadeusOperator.get_flight_offers self origin destination departure_date
    path adults w = (Ok (Some offers), w') ->
  accepted_offers 400 offers = [] ->
  fs w' !! path = Some (RawCsv [])
  /\ __init__ path w' = (Raise EmptyDataError, w').
Proof.
  intros Hfree Hcall Hnone. unfold AmadeusOperator.get_flight_offers in Hcall.
  destruct (PyDate.strptime_ymd departure_date) as [d|]; [|discriminate].
  destruct (PyDate.ltb d (today w)); [discriminate|].
  destruct (AmadeusOperator.amadeus self origin destination departure_date
              adults) as [l|e]; [|destruct e; discriminate].
  destruct (AmadeusOperator._add_offers_to_df [] l 400) as [new|e] eqn:Hnew;
    [|discriminate].
  unfold AmadeusOperator.to_csv_append in Hcall. rewrite Hfree in Hcall.
  injection Hcall as <- <-.
  destruct (add_offers_appends _ _ _ _ Hnew) as (new' & -> & Hacc).
  rewrite Hnone in Hacc. apply Forall2_nil_inv_l in Hacc as ->.
  cbn [app].
  assert (fs (set_fs w (<[path:=RawCsv []]> (fs w))) !! path
          = Some (RawCsv [])) as Hfile
    by (simpl; by rewrite lookup_insert_eq).
  split; [exact Hfile|].
  unfold __init__, bind, read_file. by rewrite Hfile.
Qed.

Lemma string_length_app (s1 s2 : string) :
  String.length (s1 ++ s2) = (String.length s1 + String.length s2)%nat.
Proof. induction s1 as [|c s1 IH]; simpl; [done | by rewrite IH]. Qed.

(** X16.  A duration from zero to under a hundred hours is printed in five
    characters, [HH:MM].  A negative one, which step 5 gets from a total
    shorter than its legs, is printed with a minus sign in front of its
    hours, rounded down, and the minutes left over: minus thirty minutes is
    [-1:30]. *)
Theorem hhmm_width (x : Z) :
  (0 <= x < 360000000000000 -> String.length (hhmm x) = 5%nat)
  /\ (x < 0 ->
      exists rest,
        hhmm x = String "-" rest
        /\ components_days x * 24 + components_hours x < 0
        /\ 0 <= components_minutes x < 60).
Proof.
  destruct (hhmm_floor x) as [Hh Hm]. unfold hhmm. rewrite Hh, Hm.
  assert (forall z, 0 <= z < 100 -> String.length (fmt02 z) = 2%nat) as Htwo.
  { intros z Hz. apply Nat.eqb_eq.
    apply (range_check (fun z => Nat.eqb (String.length (fmt02 z)) 2) 0 100);
      [vm_compute; reflexivity | lia]. }
  split.
  - intros Hx. rewrite !string_length_app, !Htwo; [done| |].
    + pose proof (Z.mod_pos_bound (x / 60000000000) 60). lia.
    + split; [apply Z.div_pos; [apply Z.div_pos|]; lia|].
      apply Z.div_lt_upper_bound; [lia|].
      apply Z.div_lt_upper_bound; lia.
  - intros Hx.
    assert (x / 60000000000 / 60 < 0) as Hneg.
    { apply Z.div_lt_upper_bound; [lia|].
      assert (x / 60000000000 < 0); [|lia].
      apply Z.div_lt_upper_bound; lia. }
    assert (0 <= (x / 60000000000) mod 60 < 60) as Hmin
      by (apply Z.mod_pos_bound; lia).
    unfold fmt02 at 1.
    destruct (x / 60000000000 / 60) as [|p|p] eqn:Hq; try lia.
    eexists. split; [reflexivity|]. split; [lia | exact Hmin].
Qed.

End NormaliserDisk.

(** ** The further properties at work *)

Section MoreRuns.

Import Table FlightOfferProcessor.

Lemma get_flight_offers_raises_without_trace_witness :
  AmadeusOperator.get_flight_offers
    (Sample.client (Ok [Sample.offer350; Scenario.no_segment]))
    "JFK" "TLV" "2025-01-03" "raw_offers_back.csv" 1 Sample.fresh
  = (Raise IndexError, Sample.fresh).
Proof.
  apply (proj2 (get_flight_offers_raises_without_trace _ _ _ _ _ _ _)
           Scenario.jan3 [Sample.offer350; Scenario.no_segment]);
    vm_compute; reflexivity.
Defined.

Lemma strptime_strftime_witness :
  PyDate.strptime_ymd (Calendar.strftime_ymd Scenario.jan3)
  = Some Scenario.jan3
  /\ (forall d', Calendar.valid d' = true -> 1000 <= PyDate.year d' ->
                 Calendar.strftime_ymd d' = Calendar.strftime_ymd Scenario.jan3 ->
                 d' = Scenario.jan3).
Proof.
  apply strptime_strftime; [vm_compute; reflexivity | simpl; lia].
Defined.

(** The two days of [main.py]. *)
Lemma get_flights_within_dates_days_witness :
  (forall w,
     Batch.get_flights_within_dates Scenario.out_of_quota "JFK" "TLV"
       Scenario.jan3 Scenario.jan4 "raw_offers_back.csv" 1 w
     = for_days Scenario.out_of_quota "JFK" "TLV"
         (days_between Scenario.jan3 Scenario.jan4) "raw_offers_back.csv" 1 w)
  /\ (forall d, d ∈ days_between Scenario.jan3 Scenario.jan4 <->
                Calendar.valid d = true
                /\ Calendar.leb Scenario.jan3 d = true
                /\ Calendar.leb d Scenario.jan4 = true)
  /\ StronglySorted (fun a b => PyDate.ltb a b = true)
       (days_between Scenario.jan3 Scenario.jan4).
Proof.
  apply get_flights_within_dates_days; vm_compute; reflexivity.
Defined.

Lemma across_origins_of_no_day_witness :
  Batch.get_flights_across_origins Scenario.out_of_quota ["JFK"; "ATH"] "TLV"
    Scenario.jan4 Scenario.jan3 "raw_offers_back.csv" 1 Sample.fresh
  = (Ok tt,
     print_all Sample.fresh
       (map (fun origin => Batch.retrieved origin "TLV") ["JFK"; "ATH"])).
Proof.
  apply across_origins_of_no_day. vm_compute. reflexivity.
Defined.

(** Two origins, two days, a provider out of quota: sixteen lines on the
    terminal, no file. *)
Lemma batch_survives_provider_errors_witness :
  exists w',
    Batch.get_flights_across_origins Scenario.out_of_quota ["JFK"; "ATH"]
      "TLV" Scenario.jan3 Scenario.jan4 "raw_offers_back.csv" 1 Sample.fresh
    = (Ok tt, w')
    /\ raw_or_absent "raw_offers_back.csv" w' = true.
Proof.
  apply batch_survives_provider_errors.
  - intros origin destination departure_date adults. exact I.
  - vm_compute. reflexivity.
  - vm_compute. reflexivity.
  - simpl. lia.
  - vm_compute. reflexivity.
  - vm_compute. reflexivity.
Defined.

Lemma process_is_row_wise_witness :
  exists iata_city d',
    fs Sample.fetched !! "iata_codes.json" = Some (JsonMap iata_city)
    /\ df Scenario.report = Some d'
    /\ filepath Scenario.report = filepath Sample.loaded
    /\ names (columns d') = new_order
    /\ width (columns d') = 14%nat
    /\ length (rows d') = length (rows Scenario.table)
    /\ (forall i r,
          rows Scenario.table !! i = Some r ->
          rows d' !! i
          = Some (report_of Sample.to_timedelta_str Sample.to_datetime_str
                    iata_city (forallb is_eur (rows Scenario.table)) r)).
Proof.
  apply (process_is_row_wise Sample.to_timedelta_str Sample.to_datetime_str
           Sample.loaded Scenario.report Scenario.table
           Sample.fetched Sample.fetched);
    vm_compute; reflexivity.
Defined.

Lemma process_converts_all_or_none_witness :
  exists d',
    df Scenario.report = Some d'
    /\ (Sample.fetched = Sample.fetched
        /\ Forall (fun r => Currency r = Some "ILS") (rows d')
        \/ Sample.fetched = print Sample.fetched "Not all prices are in EUR!!!"
           /\ map Currency (rows d') = map Currency (rows Scenario.table)
           /\ Exists (fun r => Currency r <> Some "EUR") (rows Scenario.table)).
Proof.
  apply (process_converts_all_or_none
           Sample.to_timedelta_str Sample.to_datetime_str
           Sample.loaded Scenario.report Scenario.table
           Sample.fetched Sample.fetched);
    vm_compute; reflexivity.
Defined.

Lemma process_twice_raises_witness :
  exists d',
    df Scenario.report = Some d'
    /\ width (columns d') = 14%nat
    /\ length canonical_header = 11%nat
    /\ add_header Scenario.report = Raise ValueError
    /\ process Sample.to_timedelta_str Sample.to_datetime_str Scenario.report
         Sample.fresh
       = (Raise ValueError, Sample.fresh).
Proof.
  destruct (process_twice_raises
              Sample.to_timedelta_str Sample.to_datetime_str
              Sample.loaded Scenario.report Scenario.table
              Sample.fetched Sample.fetched)
    as (d' & Hd' & Hwidth & Hlabels & Hheader & Htwice);
    [vm_compute; reflexivity | vm_compute; reflexivity |].
  exists d'. split; [exact Hd'|]. split; [exact Hwidth|].
  split; [exact Hlabels|]. split; [exact Hheader|]. apply Htwice.
Defined.

Lemma process_succeeds_witness :
  process Sample.to_timedelta_str Sample.to_datetime_str Sample.loaded
    Sample.fetched
  = processed Sample.to_timedelta_str Sample.to_datetime_str Sample.cities
      Sample.loaded Scenario.table Sample.fetched.
Proof.
  apply process_succeeds.
  - reflexivity.
  - vm_compute. reflexivity.
  - unfold processable. split_and?.
    + vm_compute. reflexivity.
    + repeat constructor; vm_compute; discriminate.
    + vm_compute. reflexivity.
    + vm_compute. reflexivity.
    + vm_compute. reflexivity.
    + repeat constructor; vm_compute; discriminate.
Defined.

Lemma fetch_without_accepted_offer_breaks_load_witness :
  fs Scenario.nothing_accepted !! "raw_offers_back.csv" = Some (RawCsv [])
  /\ __init__ "raw_offers_back.csv" Scenario.nothing_accepted
     = (Raise EmptyDataError, Scenario.nothing_accepted).
Proof.
  apply (fetch_without_accepted_offer_breaks_load
           (Sample.client (Ok [Sample.offer500]))
           "JFK" "TLV" "2025-01-03" "raw_offers_back.csv" 1 Sample.fresh
           Scenario.nothing_accepted [Sample.offer500]);
    vm_compute; reflexivity.
Defined.

(** Nine hours and three quarters, and minus half an hour. *)
Lemma hhmm_width_witness :
  String.length (hhmm 35100000000000) = 5%nat
  /\ exists rest,
       hhmm (-1800000000000) = String "-" rest
       /\ components_days (-1800000000000) * 24
          + components_hours (-1800000000000) < 0
       /\ 0 <= components_minutes (-1800000000000) < 60.
Proof.
  split.
  - apply (proj1 (hhmm_width 35100000000000)). lia.
  - apply (proj2 (hhmm_width (-1800000000000))). lia.
Defined.

End MoreRuns.
